(** * Forecasting pipeline of the stock-prediction service

    A shallow embedding of the core of
    [app/services/data_service.py], [app/utils/feature_engineering.py],
    [app/services/model_service.py] and the routes of [app/api/routes.py]
    that drive them, and the properties of the pipeline specification
    checked against it.

    Modelling conventions.
    - A pandas [DataFrame] is column-major: an index (one label per row)
      and an ordered list of named columns.  Cells are IEEE-754 binary64
      values ([PrimFloat.float]), so that NaN ("missing") and the
      infinities are the ones numpy sees.  Index labels are integers:
      nanosecond timestamps for a [DatetimeIndex] (proper timestamps, no
      NaT), plain labels otherwise.
    - The split ratio is a Python float used once, in
      [int(len(data) * split_ratio)].  It is modelled as an exact rational
      and [int] as truncation toward zero.
    - Exceptions are values of [exception]; a method that can raise returns
      a [result].  Methods that assign to [self] return the new object next
      to the result.
    - The numerical routines of pandas, numpy, scikit-learn and pmdarima
      are not part of the repository: they are section variables, and
      every theorem holds for all of them. *)

From Stdlib Require Import List ZArith QArith Bool String Ascii Lia Floats.
From Stdlib Require Import Qround Uint63 Sorted DecimalString DecimalZ.
Import ListNotations.

Local Open Scope string_scope.
Local Open Scope list_scope.
Local Open Scope Z_scope.

Set Implicit Arguments.

(** ** Exceptions and results *)

Inductive exception : Type :=
  (* data_service.py *)
| NoDataLoaded                         (* ValueError("No data loaded") *)
| IndexOutOfBounds                     (* IndexError of [index[i]] *)
  (* feature_engineering.py, raised inside pandas *)
| NegativeWindow (window : Z)          (* ValueError of [rolling(window)] *)
| KeyError (column : string)           (* [frame[column]] on an absent column *)
  (* model_service.py *)
| TargetColumnNotFound (target : string)
| FeaturesNotFound (missing : list string)
| LibraryError                         (* raised by pmdarima *)
| AttributeError (name : string)       (* attribute access on None *)
| NoTrainedModel
| PeriodsRequired
| LengthMismatch                       (* pd.Series(values, index) *)
| MetricsInputsRequired
| NoValuesAvailable                    (* common length zero *)
| NoValidValues (total nan_pred nan_actual inf_pred inf_actual : nat)
| NothingLeftAfterFiltering
| NonFiniteAfterFiltering.

Inductive result (A : Type) : Type :=
| Ok (a : A)
| Raise (e : exception).
Arguments Ok {A} a.
Arguments Raise {A} e.

Definition bind {A B} (r : result A) (k : A -> result B) : result B :=
  match r with
  | Ok a => k a
  | Raise e => Raise e
  end.

Notation "'let*' x ':=' r 'in' k" := (bind r (fun x => k))
  (at level 10, x name, r at level 100, k at level 200).

(** ** Python sequence operations *)

Module Py.

(** [l[k]] with Python's negative indices; [None] is IndexError. *)
Definition item {A} (l : list A) (k : Z) : option A :=
  let n := Z.of_nat (List.length l) in
  if 0 <=? k then nth_error l (Z.to_nat k)
  else if 0 <=? n + k then nth_error l (Z.to_nat (n + k))
  else None.

(** The position a slice bound [k] denotes in a sequence of length [n]. *)
Definition bound (k : Z) (n : nat) : nat :=
  if 0 <=? k then Nat.min (Z.to_nat k) n
  else Z.to_nat (Z.max 0 (Z.of_nat n + k)).

(** [l[:k]] and [l[k:]]. *)
Definition upto {A} (k : Z) (l : list A) : list A := firstn (bound k (List.length l)) l.
Definition from {A} (k : Z) (l : list A) : list A := skipn (bound k (List.length l)) l.

(** [int(x)] on a number: truncation toward zero. *)
Definition int (x : Q) : Z := Z.quot (Qnum x) (Zpos (Qden x)).

(** [str(k)] on an integer. *)
Definition str (k : Z) : string := NilZero.string_of_int (Z.to_int k).

(** [l[mask]] of numpy and pandas: the entries where the mask is true. *)
Fixpoint select {A} (mask : list bool) (l : list A) : list A :=
  match mask, l with
  | b :: mask', x :: l' => if b then x :: select mask' l' else select mask' l'
  | _, _ => []
  end.

(** Truth value of an optional integer: [None] and [0] are false. *)
Definition truth_of_int (n : option Z) : bool :=
  match n with
  | Some k => negb (k =? 0)
  | None => false
  end.

End Py.

(** ** Data frames *)

Inductive IndexKind : Type := DatetimeIndex | PlainIndex.

Definition is_datetime (k : IndexKind) : bool :=
  match k with DatetimeIndex => true | PlainIndex => false end.

Record DataFrame : Type := mkFrame {
  index_kind : IndexKind;
  index : list Z;
  columns : list (string * list float)
}.

Module Frame.

Definition len (df : DataFrame) : nat := List.length (index df).

Definition column_names (df : DataFrame) : list string := map fst (columns df).

(** [name in frame.columns] *)
Definition has_column (df : DataFrame) (name : string) : bool :=
  existsb (String.eqb name) (column_names df).

(** [frame[name]] *)
Fixpoint lookup (name : string) (cols : list (string * list float)) : option (list float) :=
  match cols with
  | [] => None
  | (c, v) :: rest => if String.eqb name c then Some v else lookup name rest
  end.

Definition get (df : DataFrame) (name : string) : result (list float) :=
  match lookup name (columns df) with
  | Some v => Ok v
  | None => Raise (KeyError name)
  end.

(** [frame[name] = values]: replaces the column in place when it exists,
    appends it as the last column otherwise. *)
Fixpoint assign (name : string) (values : list float) (cols : list (string * list float))
  : list (string * list float) :=
  match cols with
  | [] => [(name, values)]
  | (c, v) :: rest =>
      if String.eqb name c then (c, values) :: rest
      else (c, v) :: assign name values rest
  end.

Definition set (df : DataFrame) (name : string) (values : list float) : DataFrame :=
  mkFrame (index_kind df) (index df) (assign name values (columns df)).

(** [frame[mask]] with a boolean row mask. *)
Definition mask_rows (mask : list bool) (df : DataFrame) : DataFrame :=
  mkFrame (index_kind df) (Py.select mask (index df))
          (map (fun c => (fst c, Py.select mask (snd c))) (columns df)).

(** [frame.iloc[:k]] and [frame.iloc[k:]] *)
Definition iloc_upto (k : Z) (df : DataFrame) : DataFrame :=
  mkFrame (index_kind df) (Py.upto k (index df))
          (map (fun c => (fst c, Py.upto k (snd c))) (columns df)).

Definition iloc_from (k : Z) (df : DataFrame) : DataFrame :=
  mkFrame (index_kind df) (Py.from k (index df))
          (map (fun c => (fst c, Py.from k (snd c))) (columns df)).

(** [frame[names]] with a list of names: the named columns in the order
    asked for; KeyError on the first absent one. *)
Fixpoint project_columns (cols : list (string * list float)) (names : list string)
  : result (list (string * list float)) :=
  match names with
  | [] => Ok []
  | name :: rest =>
      match lookup name cols with
      | None => Raise (KeyError name)
      | Some v => let* vs := project_columns cols rest in Ok ((name, v) :: vs)
      end
  end.

Definition project (df : DataFrame) (names : list string) : result DataFrame :=
  let* cols := project_columns (columns df) names in
  Ok (mkFrame (index_kind df) (index df) cols).

(** [frame.tail(n)]: [iloc[0:0]] for [n = 0], [iloc[-n:]] otherwise. *)
Definition tail (n : Z) (df : DataFrame) : DataFrame :=
  if n =? 0 then iloc_upto 0 df else iloc_from (- n) df.

(** Every column is as long as the index. *)
Definition well_formed (df : DataFrame) : Prop :=
  Forall (fun c => List.length (snd c) = len df) (columns df).

End Frame.

(** ** data_service.py *)

Module DataService.

Record t : Type := mk {
  current_data : option DataFrame
}.

Definition date_based : string := "date_based".

(** [int(len(self.current_data) * split_ratio)] *)
Definition split_index (data : DataFrame) (split_ratio : Q) : Z :=
  Py.int (inject_Z (Z.of_nat (Frame.len data)) * split_ratio)%Q.

Definition split_data (self : t) (split_ratio : Q) (method : string)
  : result (DataFrame * DataFrame) :=
  match current_data self with
  | None => Raise NoDataLoaded
  | Some data =>
      if String.eqb method date_based && is_datetime (index_kind data) then
        let split_index := split_index data split_ratio in
        match Py.item (index data) split_index with
        | None => Raise IndexOutOfBounds
        | Some split_date =>
            let training_data :=
              Frame.mask_rows (map (fun ts => ts <? split_date) (index data)) data in
            let testing_data :=
              Frame.mask_rows (map (fun ts => split_date <=? ts) (index data)) data in
            Ok (training_data, testing_data)
        end
      else
        let split_index := split_index data split_ratio in
        Ok (Frame.iloc_upto split_index data, Frame.iloc_from split_index data)
  end.

(** What a chart method returns: a dictionary with an ["error"] entry
    (the message and the column names it lists), or the chart data. *)
Inductive Reply (A : Type) : Type :=
| ErrorDict (message : string) (names : list string)
| Data (a : A).
Arguments ErrorDict {A} message names.
Arguments Data {A} a.

Record VwapChart : Type := mkVwapChart {
  vwap_dates : list Z;
  vwap_values : list float
}.

Record Candles : Type := mkCandles {
  candle_dates : list Z;
  candle_open : list float;
  candle_high : list float;
  candle_low : list float;
  candle_close : list float
}.

(** [if limit: data = data.tail(limit)] *)
Definition limited (limit : option Z) (data : DataFrame) : DataFrame :=
  match limit with
  | Some n => if Py.truth_of_int limit then Frame.tail n data else data
  | None => data
  end.

Definition get_vwap_chart_data (self : t) (limit : option Z) : result (Reply VwapChart) :=
  match current_data self with
  | None => Ok (ErrorDict "No data loaded" [])
  | Some current =>
      if negb (Frame.has_column current "VWAP") then
        Ok (ErrorDict "VWAP column not found" [])
      else
        let* data := Frame.project current ["VWAP"] in
        let data := limited limit data in
        let* vwap := Frame.get data "VWAP" in
        Ok (Data (mkVwapChart (index data) vwap))
  end.

Definition required_cols : list string := ["Open"; "High"; "Low"; "Close"].

(** The date bounds are the timestamps [pd.to_datetime] parses from the
    strings given; [None] stands for an absent or empty string.  The
    comparisons with the bounds are those of a time index: the properties
    of this method are stated for time-indexed tables. *)
Definition get_candlestick_data (self : t) (start_date end_date : option Z)
  (limit : option Z) : result (Reply Candles) :=
  match current_data self with
  | None => Ok (ErrorDict "No data loaded" [])
  | Some current =>
      let missing_cols :=
        filter (fun col => negb (Frame.has_column current col)) required_cols in
      match missing_cols with
      | _ :: _ => Ok (ErrorDict "Missing columns" missing_cols)
      | [] =>
          let* data := Frame.project current required_cols in
          let data :=
            match start_date with
            | Some start =>
                Frame.mask_rows (map (fun ts => start <=? ts) (index data)) data
            | None => data
            end in
          let data :=
            match end_date with
            | Some stop =>
                Frame.mask_rows (map (fun ts => ts <=? stop) (index data)) data
            | None => data
            end in
          let data := limited limit data in
          let* open := Frame.get data "Open" in
          let* high := Frame.get data "High" in
          let* low := Frame.get data "Low" in
          let* close := Frame.get data "Close" in
          Ok (Data (mkCandles (index data) open high low close))
      end
  end.

End DataService.


(** ** feature_engineering.py *)

Module FeatureEngineer.

(** The four branches of the [if operation == ... elif ...] chain. *)
Inductive Statistic : Type := Mean | Std | Min | Max.

Definition statistic_name (s : Statistic) : string :=
  match s with
  | Mean => "mean"
  | Std => "std"
  | Min => "min"
  | Max => "max"
  end.

Definition recognize (operation : string) : option Statistic :=
  if String.eqb operation "mean" then Some Mean
  else if String.eqb operation "std" then Some Std
  else if String.eqb operation "min" then Some Min
  else if String.eqb operation "max" then Some Max
  else None.

(** [f"{col}_rolling_mean_{window}"] and its three siblings. *)
Definition feature_name (col : string) (s : Statistic) (window : Z) : string :=
  (col ++ "_rolling_" ++ statistic_name s ++ "_" ++ Py.str window)%string.

Inductive LogRecord : Type :=
| ColumnNotFound (col : string)        (* logger.warning *)
| DroppedRows (count : nat).           (* logger.info *)

Record t : Type := mk {
  data : option DataFrame;
  generated_features : list string
}.

(** The loop variables of [generate_rolling_features]. *)
Record Locals : Type := mkLocals {
  dataframe : DataFrame;
  feature_names : list string;
  log : list LogRecord
}.

Record Outcome : Type := mkOutcome {
  returned : DataFrame;
  self_after : t;
  records : list LogRecord
}.

(** A [for] loop whose body may raise. *)
Fixpoint for_each {A S : Type} (body : S -> A -> result S) (items : list A) (st : S)
  : result S :=
  match items with
  | [] => Ok st
  | x :: rest => let* st' := body st x in for_each body rest st'
  end.

(** Rows [i-window+1 .. i] of a column. *)
Definition window_at (xs : list float) (window i : nat) : list float :=
  firstn window (skipn (i + 1 - window) xs).

(** [frame.dropna()]: a row stays when none of its cells is missing. *)
Definition row_complete (df : DataFrame) (i : nat) : bool :=
  forallb (fun c => negb (is_nan (nth i (snd c) nan))) (columns df).

Definition keep_mask (df : DataFrame) : list bool :=
  map (row_complete df) (seq 0 (Frame.len df)).

Definition dropna (df : DataFrame) : DataFrame := Frame.mask_rows (keep_mask df) df.

Section Rolling.

(** What pandas computes for one complete window without missing values. *)
Variable window_statistic : Statistic -> list float -> float.

(** [Series.rolling(window)] has [min_periods = window]: a window holding
    fewer observations than that (a missing value counts as none) yields
    NaN, and so do an empty window and the sample deviation (ddof = 1) of
    a single observation. *)
Definition aggregate (s : Statistic) (win : list float) : float :=
  if existsb is_nan win then nan
  else match win, s with
       | [], _ => nan
       | [_], Std => nan
       | _, _ => window_statistic s win
       end.

Definition rolling_value (s : Statistic) (window : nat) (xs : list float) (i : nat) : float :=
  if (i + 1 <? window)%nat then nan else aggregate s (window_at xs window i).

(** [series.rolling(window=window).<s>()] *)
Definition rolling (s : Statistic) (window : Z) (xs : list float) : result (list float) :=
  if window <? 0 then Raise (NegativeWindow window)
  else Ok (map (rolling_value s (Z.to_nat window) xs) (seq 0 (List.length xs))).

(** Body of [for operation in operations]. *)
Definition operation_step (col : string) (window : Z) (st : Locals) (operation : string)
  : result Locals :=
  match recognize operation with
  | Some s =>
      let name := feature_name col s window in
      let* source := Frame.get (dataframe st) col in
      let* values := rolling s window source in
      Ok (mkLocals (Frame.set (dataframe st) name values)
                   (feature_names st ++ [name])
                   (log st))
  | None => Ok st
  end.

(** Body of [for window in windows]. *)
Definition window_step (operations : list string) (col : string) (st : Locals) (window : Z)
  : result Locals :=
  for_each (operation_step col window) operations st.

(** Body of [for col in columns]. *)
Definition column_step (windows : list Z) (operations : list string) (st : Locals)
  (col : string) : result Locals :=
  if negb (Frame.has_column (dataframe st) col) then
    Ok (mkLocals (dataframe st) (feature_names st) (log st ++ [ColumnNotFound col]))
  else for_each (window_step operations col) windows st.

Definition default_operations : list string := ["mean"; "std"].

(** The three nested loops, before [dropna]. *)
Definition augment (data : DataFrame) (columns : list string) (windows : list Z)
  (operations : list string) : result Locals :=
  for_each (column_step windows operations) columns (mkLocals data [] []).

Definition generate_rolling_features (self : t) (data : DataFrame) (columns : list string)
  (windows : list Z) (operations : option (list string)) : result Outcome :=
  let operations :=
    match operations with
    | None => default_operations
    | Some ops => ops
    end in
  let* st := augment data columns windows operations in
  let initial_rows := Frame.len (dataframe st) in
  let dataframe := dropna (dataframe st) in
  let dropped_rows := (initial_rows - Frame.len dataframe)%nat in
  let log :=
    if (0 <? dropped_rows)%nat then log st ++ [DroppedRows dropped_rows] else log st in
  Ok (mkOutcome dataframe (mk (Some dataframe) (feature_names st)) log).

End Rolling.

(** [get_rolling_feature_names]: the names, without generating anything. *)
Definition get_rolling_feature_names (columns : list string) (windows : list Z)
  (operations : option (list string)) : list string :=
  let operations :=
    match operations with
    | None => ["mean"; "std"]
    | Some ops => ops
    end in
  flat_map
    (fun col =>
       flat_map
         (fun window =>
            map (fun operation =>
                   (col ++ "_rolling_" ++ operation ++ "_" ++ Py.str window)%string)
                operations)
         windows)
    columns.

(** [get_feature_info()["feature_names"]] *)
Definition get_feature_names (self : t) : list string :=
  match data self with
  | None => []
  | Some _ => generated_features self
  end.

Record FeatureInfo : Type := mkFeatureInfo {
  feature_count : nat;
  info_feature_names : list string;
  data_shape : option (nat * nat);
  preview : list (list (string * float))
}.

(** Row [i] as a dictionary from column name to cell. *)
Definition record_at (df : DataFrame) (i : nat) : list (string * float) :=
  map (fun c => (fst c, nth i (snd c) nan)) (columns df).

(** [frame.head(5).to_dict('records')] *)
Definition head_records (df : DataFrame) : list (list (string * float)) :=
  map (record_at df) (seq 0 (Nat.min 5 (Frame.len df))).

(** [get_feature_info]; without data the dictionary has no preview. *)
Definition get_feature_info (self : t) : FeatureInfo :=
  match data self with
  | None => mkFeatureInfo 0 [] None []
  | Some df =>
      mkFeatureInfo (List.length (generated_features self)) (generated_features self)
        (Some (Frame.len df, List.length (columns df)))
        (if (0 <? Frame.len df)%nat then head_records df else [])
  end.

End FeatureEngineer.


(** ** model_service.py *)

(** [pd.Series(values, index=labels)] *)
Record Series : Type := mkSeries {
  values : list float;
  labels : list Z
}.

Module Np.

Definition of_nat (n : nat) : float := PrimFloat.of_uint63 (Uint63.of_Z (Z.of_nat n)).

Definition hundred : float := 100%float.

(** [np.diff] *)
Fixpoint diff (l : list float) : list float :=
  match l with
  | x :: (y :: _) as rest => (y - x)%float :: diff rest
  | _ => []
  end.

(** Elementwise binary operation on two arrays of one length. *)
Fixpoint zip_with {A B C : Type} (f : A -> B -> C) (l : list A) (r : list B) : list C :=
  match l, r with
  | x :: l', y :: r' => f x y :: zip_with f l' r'
  | _, _ => []
  end.

(** [np.sum] of a boolean array, and of a predicate over an array. *)
Definition count_true (l : list bool) : nat := List.length (filter (fun b => b) l).
Definition count {A : Type} (p : A -> bool) (l : list A) : nat := List.length (filter p l).

(** [np.any] *)
Definition any (l : list bool) : bool := existsb (fun b => b) l.

(** [np.mean] of a boolean array: the sum of zeros and ones is exact,
    whatever the order of summation. *)
Definition mean_bool (l : list bool) : float :=
  (of_nat (count_true l) / of_nat (List.length l))%float.

(** [np.sign] *)
Definition sign (x : float) : float :=
  if (x <? 0)%float then (-1)%float
  else if (0 <? x)%float then 1%float
  else if (x =? 0)%float then 0%float
  else nan.

End Np.

Module ModelService.

Record ArimaParams : Type := mkParams {
  trace : bool;
  max_p : Z;
  max_d : Z;
  max_q : Z
}.

Record ModelInfo : Type := mkInfo {
  model_type : string;
  parameters : Z * Z * Z;
  aic : option float;
  training_rows : nat;
  testing_rows : nat;
  features_used : list string;
  target_column : string;
  model_summary : option string
}.

Record Metrics : Type := mkMetrics {
  mse : float;
  rmse : float;
  mae : float;
  mape : option float;
  directional_accuracy : option float
}.

Record Prediction : Type := mkPrediction {
  forecast_values : list float;
  dates : list Z;
  actual : option (list float);
  n_periods : Z
}.

Definition day : Z := 86400000000000.

(** [frame[names]]: the named columns, in the order asked for. *)
Fixpoint select_columns (df : DataFrame) (names : list string) : result (list (list float)) :=
  match names with
  | [] => Ok []
  | name :: rest =>
      let* v := Frame.get df name in
      let* vs := select_columns df rest in
      Ok (v :: vs)
  end.

(** Truth value of a Python list. *)
Definition truthy {A : Type} (l : list A) : bool :=
  match l with
  | [] => false
  | _ :: _ => true
  end.

Section Library.

(** A fitted pmdarima model and what the service reads from it. *)
Variable Model : Type.
Variable auto_arima :
  ArimaParams -> list float -> option (list (list float)) -> result Model.
Variable model_order : Model -> option (Z * Z * Z).
Variable model_aic : Model -> option float.
Variable model_summary_text : Model -> option string.
Variable model_predict : Model -> Z -> option (list (list float)) -> result (list float).

(** scikit-learn's error means and [np.mean] over a float array. *)
Variable mean_squared_error : list float -> list float -> float.
Variable mean_absolute_error : list float -> list float -> float.
Variable np_mean : list float -> float.

Record t : Type := mk {
  config : ArimaParams;
  model : option Model;
  model_info : option ModelInfo;
  training_data : option DataFrame;
  testing_data : option DataFrame;
  predictions : option Series;
  actual_values : option Series
}.

(** [ModelService()] *)
Definition init (config : ArimaParams) : t :=
  mk config None None None None None None.

(** The part of [train_arima] that can raise. *)
Definition fit (self : t) (training_data : DataFrame) (target_column : string)
  (features : list string) : result Model :=
  if negb (Frame.has_column training_data target_column) then
    Raise (TargetColumnNotFound target_column)
  else
    let missing_features :=
      filter (fun f => negb (Frame.has_column training_data f)) features in
    if truthy missing_features then Raise (FeaturesNotFound missing_features)
    else
      let* y := Frame.get training_data target_column in
      let* X :=
        if truthy features then
          let* cols := select_columns training_data features in Ok (Some cols)
        else Ok None in
      auto_arima (config self) y X.

Definition train_arima (self : t) (training_data : DataFrame) (target_column : string)
  (features : list string) (test_data : option DataFrame) : result ModelInfo * t :=
  match fit self training_data target_column features with
  | Raise e => (Raise e, self)
  | Ok fitted =>
      let order :=
        match model_order fitted with
        | Some o => o
        | None => (0, 0, 0)
        end in
      let info :=
        mkInfo "ARIMA" order (model_aic fitted) (Frame.len training_data)
               (match test_data with
                | Some td => Frame.len td
                | None => 0%nat
                end)
               features target_column (model_summary_text fitted) in
      (Ok info,
       mk (config self) (Some fitted) (Some info) (Some training_data) test_data
          (predictions self) (actual_values self))
  end.

(** [pd.Series(values, index=labels)] raises on a length mismatch. *)
Definition make_series (vals : list float) (idx : list Z) : result Series :=
  if (List.length vals =? List.length idx)%nat then Ok (mkSeries vals idx)
  else Raise LengthMismatch.

(** [range(n)] as labels. *)
Definition range (n : Z) : list Z := map Z.of_nat (seq 0 (Z.to_nat n)).

(** The part of [predict] before the assignments to [self]. *)
Definition forecast (self : t) (n_periods : option Z) (X : option (list (list float)))
  : result (Z * list float * list Z * option (list float)) :=
  match model self with
  | None => Raise NoTrainedModel
  | Some fitted =>
      let* n_periods :=
        match n_periods, testing_data self with
        | Some n, _ => Ok n
        | None, Some td => Ok (Z.of_nat (Frame.len td))
        | None, None => Raise PeriodsRequired
        end in
      let* X :=
        match X, testing_data self with
        | None, Some td =>
            let features :=
              match model_info self with
              | Some info => features_used info
              | None => []
              end in
            if truthy features then
              let* cols := select_columns td features in Ok (Some cols)
            else Ok None
        | _, _ => Ok X
        end in
      let* forecast := model_predict fitted n_periods X in
      let* dates_actual :=
        match testing_data self with
        | Some td =>
            let dates := Py.upto n_periods (index td) in
            let* target :=
              match model_info self with
              | Some info => Ok (target_column info)
              | None => Raise (KeyError "target_column")
              end in
            let* column := Frame.get td target in
            Ok (dates, Some (Py.upto n_periods column))
        | None =>
            let* last_date :=
              match training_data self with
              | Some tr =>
                  match Py.item (index tr) (-1) with
                  | Some d => Ok d
                  | None => Raise IndexOutOfBounds
                  end
              | None => Raise (AttributeError "index")
              end in
            Ok (map (fun i => last_date + (i + 1) * day) (range n_periods), None)
        end in
      Ok (n_periods, forecast, fst dates_actual, snd dates_actual)
  end.

Definition predict (self : t) (n_periods : option Z) (X : option (list (list float)))
  : result Prediction * t :=
  match forecast self n_periods X with
  | Raise e => (Raise e, self)
  | Ok (n, forecast, dates, actual) =>
      match make_series forecast (if truthy dates then dates else range n) with
      | Raise e => (Raise e, self)
      | Ok predictions =>
          let with_predictions :=
            mk (config self) (model self) (model_info self) (training_data self)
               (testing_data self) (Some predictions) (actual_values self) in
          let answer := mkPrediction forecast dates actual n in
          match actual with
          | Some ((_ :: _) as vals) =>
              match make_series vals dates with
              | Raise e => (Raise e, with_predictions)
              | Ok series =>
                  (Ok answer,
                   mk (config self) (model self) (model_info self) (training_data self)
                      (testing_data self) (Some predictions) (Some series))
              end
          | _ => (Ok answer, with_predictions)
          end
      end
  end.

(** [1e-10], the threshold under which an actual value counts as zero. *)
#[warning="-inexact-float"]
Definition mape_threshold : float := 1e-10%float.

(** The block under [# Calculate MAPE (handle division by zero)]. *)
Definition percentage_error (actual_clean pred_clean : list float) : option float :=
  let non_zero_mask := map (fun a => (mape_threshold <? abs a)%float) actual_clean in
  if Np.any non_zero_mask then
    Some (np_mean
            (Np.zip_with (fun a p => abs ((a - p) / a))%float
                         (Py.select non_zero_mask actual_clean)
                         (Py.select non_zero_mask pred_clean))
          * Np.hundred)%float
  else None.

(** The block under [# Calculate directional accuracy]. *)
Definition direction_agreement (actual_clean pred_clean : list float) : option float :=
  if (1 <? List.length actual_clean)%nat then
    let actual_direction := map (fun d => (0 <? d)%float) (Np.diff actual_clean) in
    let pred_direction := map (fun d => (0 <? d)%float) (Np.diff pred_clean) in
    Some (Np.mean_bool (Np.zip_with Bool.eqb actual_direction pred_direction)
          * Np.hundred)%float
  else None.

Definition calculate_metrics (self : t) : result Metrics :=
  match predictions self, actual_values self with
  | Some predictions, Some actuals =>
      let pred_values := values predictions in
      let actual_values := values actuals in
      let min_len := Nat.min (List.length pred_values) (List.length actual_values) in
      let pred_values := firstn min_len pred_values in
      let actual_values := firstn min_len actual_values in
      if (min_len =? 0)%nat then Raise NoValuesAvailable
      else
        let valid_mask :=
          Np.zip_with (fun p a => is_finite p && is_finite a) pred_values actual_values in
        let nan_pred_count := Np.count is_nan pred_values in
        let nan_actual_count := Np.count is_nan actual_values in
        let inf_pred_count := Np.count is_infinity pred_values in
        let inf_actual_count := Np.count is_infinity actual_values in
        if negb (Np.any valid_mask) then
          Raise (NoValidValues (List.length pred_values) nan_pred_count nan_actual_count
                               inf_pred_count inf_actual_count)
        else
          let pred_clean := Py.select valid_mask pred_values in
          let actual_clean := Py.select valid_mask actual_values in
          if (List.length pred_clean =? 0)%nat then Raise NothingLeftAfterFiltering
          else if existsb (fun x => negb (is_finite x)) pred_clean
                  || existsb (fun x => negb (is_finite x)) actual_clean
          then Raise NonFiniteAfterFiltering
          else
            let mse := mean_squared_error actual_clean pred_clean in
            let rmse := PrimFloat.sqrt mse in
            let mae := mean_absolute_error actual_clean pred_clean in
            let mape := percentage_error actual_clean pred_clean in
            let directional_accuracy := direction_agreement actual_clean pred_clean in
            Ok (mkMetrics mse rmse mae mape directional_accuracy)
  | _, _ => Raise MetricsInputsRequired
  end.

Definition has_trained_model (self : t) : bool :=
  match model self with
  | Some _ => true
  | None => false
  end.

Definition has_predictions (self : t) : bool :=
  match predictions self with
  | Some _ => true
  | None => false
  end.

(** [get_model_info]; [None] is the error dictionary. *)
Definition get_model_info (self : t) : option (option ModelInfo) :=
  if has_trained_model self then Some (model_info self) else None.

End Library.

End ModelService.


(** ** data_service.py and routes.py: the services together *)

Module Routes.

(** The detail of an HTTP error: the text of a raised exception, or a
    message of the route itself. *)
Inductive Detail : Type :=
| Raised (e : exception)
| Message (text : string).

Inductive Response (A : Type) : Type :=
| Http200 (body : A)
| HttpError (status : nat) (detail : Detail).
Arguments Http200 {A} body.
Arguments HttpError {A} status detail.

(** [isinstance(e, ValueError)]: the services raise ValueError except for
    the index, key and attribute errors of Python; [LibraryError] stands
    for whatever pmdarima raises and is counted as no ValueError. *)
Definition is_value_error (e : exception) : bool :=
  match e with
  | IndexOutOfBounds | KeyError _ | AttributeError _ | LibraryError => false
  | _ => true
  end.

Section App.

Variable window_statistic : FeatureEngineer.Statistic -> list float -> float.
Variable Model : Type.
Variable auto_arima :
  ModelService.ArimaParams -> list float -> option (list (list float)) -> result Model.
Variable model_order : Model -> option (Z * Z * Z).
Variable model_aic : Model -> option float.
Variable model_summary_text : Model -> option string.
Variable model_predict : Model -> Z -> option (list (list float)) -> result (list float).
Variable mean_squared_error : list float -> list float -> float.
Variable mean_absolute_error : list float -> list float -> float.
Variable np_mean : list float -> float.

(** The module-level services of routes.py; the data service owns its
    feature engineer. *)
Record App : Type := mkApp {
  data_service : DataService.t;
  feature_engineer : FeatureEngineer.t;
  model_service : ModelService.t Model
}.

(** [DataService.generate_rolling_features] *)
Definition generate_rolling_features (app : App) (columns : list string) (windows : list Z)
  (operations : option (list string)) : result FeatureEngineer.FeatureInfo * App :=
  match DataService.current_data (data_service app) with
  | None => (Raise NoDataLoaded, app)
  | Some current =>
      match FeatureEngineer.generate_rolling_features window_statistic
              (feature_engineer app) current columns windows operations with
      | Raise e => (Raise e, app)
      | Ok out =>
          let engineer := FeatureEngineer.self_after out in
          (Ok (FeatureEngineer.get_feature_info engineer),
           mkApp (DataService.mk (Some (FeatureEngineer.returned out))) engineer
                 (model_service app))
      end
  end.

(** [POST /api/features/generate] *)
Definition generate_features (app : App) (columns : list string) (window1 window2 : Z)
  : Response FeatureEngineer.FeatureInfo * App :=
  match DataService.current_data (data_service app) with
  | None => (HttpError 400 (Message "No data loaded. Please upload data first."), app)
  | Some _ =>
      match generate_rolling_features app columns [window1; window2] None with
      | (Ok features, app') => (Http200 features, app')
      | (Raise e, app') => (HttpError 500 (Raised e), app')
      end
  end.

(** [POST /api/model/train] *)
Definition train_model (app : App) (train_split : Q) (target_column : string)
  (features : option (list string)) : Response ModelService.ModelInfo * App :=
  match DataService.current_data (data_service app) with
  | None => (HttpError 400 (Message "No data loaded"), app)
  | Some _ =>
      match DataService.split_data (data_service app) train_split DataService.date_based with
      | Raise e => (HttpError 500 (Raised e), app)
      | Ok (training_data, testing_data) =>
          let features :=
            match features with
            | Some ((_ :: _) as given) => given
            | _ => FeatureEngineer.generated_features (feature_engineer app)
            end in
          match ModelService.train_arima auto_arima model_order model_aic model_summary_text
                  (model_service app) training_data target_column features
                  (Some testing_data) with
          | (Ok model_info, service) =>
              (Http200 model_info,
               mkApp (data_service app) (feature_engineer app) service)
          | (Raise e, service) =>
              (HttpError 500 (Raised e),
               mkApp (data_service app) (feature_engineer app) service)
          end
      end
  end.

(** [POST /api/predict] *)
Definition make_predictions (app : App) (n_periods : option Z)
  : Response ModelService.Prediction * App :=
  if negb (ModelService.has_trained_model (model_service app)) then
    (HttpError 400 (Message "No trained model available"), app)
  else
    match ModelService.predict model_predict (model_service app) n_periods None with
    | (Ok predictions, service) =>
        (Http200 predictions, mkApp (data_service app) (feature_engineer app) service)
    | (Raise e, service) =>
        (HttpError 500 (Raised e), mkApp (data_service app) (feature_engineer app) service)
    end.

(** [GET /api/metrics] *)
Definition get_metrics (app : App) : Response ModelService.Metrics :=
  if negb (ModelService.has_predictions (model_service app)) then
    HttpError 400 (Message "No predictions available. Please make predictions first.")
  else
    match ModelService.predictions (model_service app),
          ModelService.actual_values (model_service app) with
    | Some _, Some _ =>
        match ModelService.calculate_metrics mean_squared_error mean_absolute_error
                np_mean (model_service app) with
        | Ok metrics => Http200 metrics
        | Raise e =>
            if is_value_error e then HttpError 400 (Raised e)
            else HttpError 500 (Raised e)
        end
    | _, _ =>
        HttpError 400 (Message "Actual values are required for metrics calculation.")
    end.

End App.

End Routes.


(** ** Reference numerics

    Textbook versions of the library routines, used to run the model on
    concrete tables.  The general theorems do not depend on them. *)

Module Reference.

Definition sum (l : list float) : float := fold_left PrimFloat.add l 0%float.

Definition mean (l : list float) : float := (sum l / Np.of_nat (List.length l))%float.

Definition square (x : float) : float := (x * x)%float.

Definition sample_std (l : list float) : float :=
  let m := mean l in
  PrimFloat.sqrt (sum (map (fun x => square (x - m)%float) l)
                  / Np.of_nat (List.length l - 1))%float.

Definition extremum (better : float -> float -> bool) (l : list float) : float :=
  match l with
  | [] => nan
  | x :: rest => fold_left (fun best y => if better y best then y else best) rest x
  end.

Definition window_statistic (s : FeatureEngineer.Statistic) (l : list float) : float :=
  match s with
  | FeatureEngineer.Mean => mean l
  | FeatureEngineer.Std => sample_std l
  | FeatureEngineer.Min => extremum PrimFloat.ltb l
  | FeatureEngineer.Max => extremum (fun y best => PrimFloat.ltb best y) l
  end.

Definition mean_squared_error (y_true y_pred : list float) : float :=
  mean (Np.zip_with (fun a p => square (a - p)%float) y_true y_pred).

Definition mean_absolute_error (y_true y_pred : list float) : float :=
  mean (Np.zip_with (fun a p => abs (p - a)%float) y_true y_pred).

(** A stand-in for a fitted model: it remembers the training series and
    forecasts its last value. *)
Definition Model : Type := list float.

Definition auto_arima (_ : ModelService.ArimaParams) (y : list float)
  (_ : option (list (list float))) : result Model :=
  match y with
  | [] => Raise LibraryError
  | _ :: _ => Ok y
  end.

Definition model_predict (m : Model) (n : Z) (_ : option (list (list float)))
  : result (list float) :=
  if n <? 0 then Raise LibraryError else Ok (repeat (last m 0%float) (Z.to_nat n)).

Definition model_order (_ : Model) : option (Z * Z * Z) := Some (0, 1, 0).
Definition model_aic (_ : Model) : option float := None.
Definition model_summary_text (_ : Model) : option string := None.

Definition params : ModelService.ArimaParams := ModelService.mkParams true 5 2 5.

Definition Service : Type := ModelService.t Model.

Definition train_arima :=
  ModelService.train_arima auto_arima model_order model_aic model_summary_text.
Definition predict := ModelService.predict model_predict.
Definition calculate_metrics :=
  ModelService.calculate_metrics (Model := Model)
    mean_squared_error mean_absolute_error mean.
Definition generate_rolling_features :=
  FeatureEngineer.generate_rolling_features window_statistic.

Definition App : Type := Routes.App Model.

Definition session_generate_rolling_features :=
  Routes.generate_rolling_features (Model := Model) window_statistic.
Definition train_model :=
  Routes.train_model auto_arima model_order model_aic model_summary_text.
Definition make_predictions := Routes.make_predictions model_predict.
Definition get_metrics :=
  Routes.get_metrics (Model := Model) mean_squared_error mean_absolute_error mean.

End Reference.

(** ** Vocabulary of the statements *)

(** The column names an error message spells out:
    [f"Target column '{target_column}' not found in data"] and
    [f"Features not found: {missing_features}"]. *)
Definition named_columns (e : exception) : list string :=
  match e with
  | TargetColumnNotFound target => [target]
  | FeaturesNotFound missing => missing
  | KeyError column => [column]
  | _ => []
  end.

(** Directional accuracy as the specification words it: the percentage of
    consecutive pairs on which [sign(actual[i+1] - actual[i])] equals
    [sign(pred[i+1] - pred[i])].  Stated for comparison with
    [ModelService.direction_agreement]. *)
Definition directional_accuracy_by_sign (actual pred : list float) : float :=
  (Np.mean_bool
     (Np.zip_with (fun x y => (x =? y)%float)
                  (map Np.sign (Np.diff actual)) (map Np.sign (Np.diff pred)))
   * Np.hundred)%float.

(** Whether a character occurs in a string. *)
Fixpoint occurs (c : ascii) (s : string) : bool :=
  match s with
  | EmptyString => false
  | String a rest => Ascii.eqb a c || occurs c rest
  end.

(** Whether the operation string is one of the four the generator knows. *)
Definition recognized (operation : string) : bool :=
  match FeatureEngineer.recognize operation with
  | Some _ => true
  | None => false
  end.

(** No requested source column bears the name of a feature the same call
    generates (as happens when the generator runs again on a table it has
    already augmented). *)
Definition raw_columns (cols : list string) (windows : list Z) : Prop :=
  forall c c' s' w',
    In c cols -> In c' cols -> In w' windows ->
    c <> FeatureEngineer.feature_name c' s' w'.

(** The column [series.rolling(window).<s>()] yields for a window size
    that is not negative. *)
Definition rolled (stat : FeatureEngineer.Statistic -> list float -> float)
  (s : FeatureEngineer.Statistic) (window : Z) (source : list float) : list float :=
  map (FeatureEngineer.rolling_value stat s (Z.to_nat window) source)
      (seq 0 (List.length source)).

(** What holds of the loop variables of [generate_rolling_features] between
    two iterations: the index is the one of the table given; a column whose
    name is in [feature_names] holds the rolled column of its descriptor,
    computed from the table given; every other column is as in the table
    given. *)
Definition loop_invariant (stat : FeatureEngineer.Statistic -> list float -> float)
  (data : DataFrame) (cols : list string) (windows : list Z)
  (st : FeatureEngineer.Locals) : Prop :=
  index (FeatureEngineer.dataframe st) = index data
  /\ forall name,
      (In name (FeatureEngineer.feature_names st) ->
       exists c s w source,
         In c cols /\ In w windows
         /\ name = FeatureEngineer.feature_name c s w
         /\ Frame.lookup c (columns data) = Some source
         /\ Frame.lookup name (columns (FeatureEngineer.dataframe st))
            = Some (rolled stat s w source))
      /\ (~ In name (FeatureEngineer.feature_names st) ->
          Frame.lookup name (columns (FeatureEngineer.dataframe st))
          = Frame.lookup name (columns data)).

(** The positions below [n] that satisfy [p], in increasing order. *)
Definition positions (p : nat -> bool) (n : nat) : list nat := filter p (seq 0 n).

(** ** Sample tables *)

Module Sample.

(** Five daily bars. *)
Definition prices : DataFrame :=
  mkFrame DatetimeIndex [1; 2; 3; 4; 5]
    [("High", [10; 12; 11; 13; 14]%float); ("VWAP", [9; 11; 10; 12; 13]%float)].

(** The same bars without a time index. *)
Definition unindexed : DataFrame :=
  mkFrame PlainIndex [0; 1; 2; 3; 4] (columns prices).

(** A header-only upload: a time index without rows. *)
Definition no_rows : DataFrame :=
  mkFrame DatetimeIndex [] [("High", []); ("VWAP", [])].

(** One bar. *)
Definition one_row : DataFrame :=
  mkFrame DatetimeIndex [1] [("High", [10]%float); ("VWAP", [9]%float)].

(** Two bars without a time index. *)
Definition two_rows : DataFrame :=
  mkFrame PlainIndex [0; 1] [("VWAP", [9; 11]%float)].

(** A table with one column, and the table a first call of the generator
    returns for it (column [A], window 2, mean). *)
Definition series : DataFrame :=
  mkFrame DatetimeIndex [1; 2; 3; 4] [("A", [1; 2; 3; 4]%float)].

Definition augmented : DataFrame :=
  mkFrame DatetimeIndex [2; 3; 4]
    [("A", [2; 3; 4]%float); ("A_rolling_mean_2", [1.5; 2.5; 3.5]%float)].

Definition engineer : FeatureEngineer.t := FeatureEngineer.mk None [].

(** The first three bars, and the last two. *)
Definition first_bars : DataFrame := Frame.iloc_upto 3 prices.
Definition last_bars : DataFrame := Frame.iloc_from 3 prices.

(** A session: train with held-out bars and predict them; then train
    again without held-out bars. *)
Definition fresh : Reference.Service := ModelService.init Reference.Model Reference.params.
Definition trained : Reference.Service :=
  snd (Reference.train_arima fresh first_bars "VWAP" [] (Some last_bars)).
Definition predicted : Reference.Service :=
  snd (Reference.predict trained None None).
Definition retrained : Reference.Service :=
  snd (Reference.train_arima predicted prices "VWAP" [] None).

(** A service that holds the given forecast and actual values. *)
Definition holding (pred actual : list float) : Reference.Service :=
  ModelService.mk Reference.params None None None None
    (Some (mkSeries pred (ModelService.range (Z.of_nat (List.length pred)))))
    (Some (mkSeries actual (ModelService.range (Z.of_nat (List.length actual))))).

End Sample.

(** * Properties *)

(** ** Lists, masks and slices *)

Lemma select_map_filter {A : Type} (f : A -> bool) (l : list A) :
  Py.select (map f l) l = filter f l.
Proof.
  induction l as [|x l IH]; simpl; [reflexivity|].
  destruct (f x); rewrite IH; reflexivity.
Qed.

Lemma filter_split_length {A : Type} (f g : A -> bool) (l : list A) :
  (forall x, g x = negb (f x)) ->
  (List.length (filter f l) + List.length (filter g l) = List.length l)%nat.
Proof.
  intros Hfg. induction l as [|x l IH]; simpl; [reflexivity|].
  rewrite Hfg. destruct (f x); simpl; lia.
Qed.

Lemma upto_firstn {A : Type} (k : Z) (l : list A) :
  0 <= k -> Py.upto k l = firstn (Z.to_nat k) l.
Proof.
  intros Hk. unfold Py.upto, Py.bound.
  destruct (0 <=? k) eqn:E; [|apply Z.leb_gt in E; lia].
  destruct (Nat.le_ge_cases (Z.to_nat k) (List.length l)) as [H|H].
  - rewrite Nat.min_l by assumption. reflexivity.
  - rewrite Nat.min_r by assumption.
    rewrite firstn_all, firstn_all2 by assumption. reflexivity.
Qed.

Lemma from_skipn {A : Type} (k : Z) (l : list A) :
  0 <= k -> Py.from k l = skipn (Z.to_nat k) l.
Proof.
  intros Hk. unfold Py.from, Py.bound.
  destruct (0 <=? k) eqn:E; [|apply Z.leb_gt in E; lia].
  destruct (Nat.le_ge_cases (Z.to_nat k) (List.length l)) as [H|H].
  - rewrite Nat.min_l by assumption. reflexivity.
  - rewrite Nat.min_r by assumption.
    rewrite skipn_all, skipn_all2 by assumption. reflexivity.
Qed.

Lemma upto_from_length {A : Type} (k : Z) (l : list A) :
  (List.length (Py.upto k l) + List.length (Py.from k l) = List.length l)%nat.
Proof.
  unfold Py.upto, Py.from.
  generalize (Py.bound k (List.length l)). intros m.
  rewrite <- (firstn_skipn m l) at 3.
  rewrite length_app. reflexivity.
Qed.

(** ** The cut index *)

Lemma int_floor (x : Q) : (0 <= x)%Q -> Py.int x = Qfloor x.
Proof.
  destruct x as [a b]. unfold Qle, Py.int, Qfloor. simpl. intros H.
  apply Z.quot_div_nonneg; lia.
Qed.

Lemma split_index_floor (data : DataFrame) (r : Q) :
  (0 <= r)%Q ->
  DataService.split_index data r
  = Qfloor (inject_Z (Z.of_nat (Frame.len data)) * r)%Q.
Proof.
  intros Hr. unfold DataService.split_index. apply int_floor.
  apply Qmult_le_0_compat; [|assumption].
  unfold Qle. simpl. lia.
Qed.

Lemma int_scaled (n a : Z) (b : positive) :
  Py.int (inject_Z n * (a # b))%Q = Z.quot (n * a) (Z.pos b).
Proof. reflexivity. Qed.

Lemma split_index_range (data : DataFrame) (r : Q) :
  (0 < r)%Q -> (r < 1)%Q -> index data <> [] ->
  0 <= DataService.split_index data r < Z.of_nat (Frame.len data).
Proof.
  intros H0 H1 Hne. unfold DataService.split_index, Frame.len.
  assert (Hn : 0 < Z.of_nat (List.length (index data))).
  { destruct (index data); [congruence|]. simpl List.length. lia. }
  destruct r as [a b]. rewrite int_scaled.
  unfold Qlt in H0, H1. simpl in H0, H1.
  split.
  - apply Z.quot_pos; nia.
  - apply Z.quot_lt_upper_bound; nia.
Qed.

(** ** split_data *)

Lemma mask_rows_index (f : Z -> bool) (data : DataFrame) :
  index (Frame.mask_rows (map f (index data)) data) = filter f (index data).
Proof. unfold Frame.mask_rows. simpl. apply select_map_filter. Qed.

Lemma item_in_range {A : Type} (l : list A) (k : Z) :
  0 <= k < Z.of_nat (List.length l) ->
  exists x, Py.item l k = Some x /\ nth_error l (Z.to_nat k) = Some x.
Proof.
  intros Hk. unfold Py.item.
  destruct (0 <=? k) eqn:E; [|apply Z.leb_gt in E; lia].
  destruct (nth_error l (Z.to_nat k)) as [x|] eqn:Hx.
  - exists x. split; reflexivity.
  - apply nth_error_None in Hx. lia.
Qed.

Lemma item_beyond {A : Type} (l : list A) (k : Z) :
  Z.of_nat (List.length l) <= k -> Py.item l k = None.
Proof.
  intros Hk. unfold Py.item.
  destruct (0 <=? k) eqn:E; [|apply Z.leb_gt in E; lia].
  apply nth_error_None. lia.
Qed.

Lemma split_data_by_date (self : DataService.t) (data : DataFrame) (r : Q) (cut : Z) :
  DataService.current_data self = Some data ->
  index_kind data = DatetimeIndex ->
  Py.item (index data) (DataService.split_index data r) = Some cut ->
  DataService.split_data self r DataService.date_based
  = Ok (Frame.mask_rows (map (fun ts => ts <? cut) (index data)) data,
        Frame.mask_rows (map (fun ts => cut <=? ts) (index data)) data).
Proof.
  intros Hd Hk Hc. unfold DataService.split_data.
  rewrite Hd, Hk. simpl. rewrite Hc. reflexivity.
Qed.

Lemma split_data_by_position (self : DataService.t) (data : DataFrame) (r : Q)
  (method : string) :
  DataService.current_data self = Some data ->
  index_kind data = PlainIndex ->
  DataService.split_data self r method
  = Ok (Frame.iloc_upto (DataService.split_index data r) data,
        Frame.iloc_from (DataService.split_index data r) data).
Proof.
  intros Hd Hk. unfold DataService.split_data.
  rewrite Hd, Hk. simpl. rewrite andb_false_r. reflexivity.
Qed.

Lemma date_masks_length (cut : Z) (data : DataFrame) :
  Nat.add (Frame.len (Frame.mask_rows (map (fun ts => ts <? cut) (index data)) data))
          (Frame.len (Frame.mask_rows (map (fun ts => cut <=? ts) (index data)) data))
  = Frame.len data.
Proof.
  unfold Frame.len. rewrite !mask_rows_index.
  apply filter_split_length. intros ts.
  destruct (Z.ltb_spec ts cut), (Z.leb_spec cut ts); simpl; try reflexivity; lia.
Qed.




Lemma split_index_beyond (data : DataFrame) (r : Q) :
  (1 <= r)%Q -> Z.of_nat (Frame.len data) <= DataService.split_index data r.
Proof.
  intros H1. unfold DataService.split_index.
  destruct r as [a b]. rewrite int_scaled.
  unfold Qle in H1. simpl in H1.
  apply Z.quot_le_lower_bound; nia.
Qed.

Lemma filter_none {A : Type} (f : A -> bool) (l : list A) :
  (forall x, In x l -> f x = false) -> filter f l = [].
Proof.
  induction l as [|x l IH]; intros H; simpl; [reflexivity|].
  rewrite (H x (or_introl eq_refl)). apply IH. intros y Hy. apply H. right. exact Hy.
Qed.

Lemma sorted_filter_before (l : list Z) (k : nat) (cut : Z) :
  StronglySorted Z.lt l ->
  nth_error l k = Some cut ->
  filter (fun ts => ts <? cut) l = firstn k l.
Proof.
  intros Hs. revert k. induction Hs as [|x l Hs IH Hx]; intros k Hk.
  - destruct k; discriminate.
  - destruct k as [|k]; simpl in Hk.
    + injection Hk as <-. simpl. rewrite Z.ltb_irrefl.
      rewrite filter_none; [reflexivity|].
      intros y Hy. rewrite Forall_forall in Hx. specialize (Hx y Hy).
      apply Z.ltb_ge. lia.
    + simpl. rewrite Forall_forall in Hx.
      assert (x < cut) by (apply Hx; eapply nth_error_In; eassumption).
      destruct (Z.ltb_spec x cut); [|lia].
      rewrite (IH k Hk). reflexivity.
Qed.







(** ** train_arima *)

Section Training.

Variable Model : Type.
Variable auto_arima :
  ModelService.ArimaParams -> list float -> option (list (list float)) -> result Model.
Variable model_order : Model -> option (Z * Z * Z).
Variable model_aic : Model -> option float.
Variable model_summary_text : Model -> option string.

Lemma has_column_In (df : DataFrame) (name : string) :
  Frame.has_column df name = true <-> In name (Frame.column_names df).
Proof.
  unfold Frame.has_column. rewrite existsb_exists. split.
  - intros (c & Hc & He). apply String.eqb_eq in He. subst. exact Hc.
  - intros H. exists name. split; [exact H|apply String.eqb_refl].
Qed.

Lemma truthy_nonempty {A : Type} (l : list A) : ModelService.truthy l = true <-> l <> [].
Proof. destruct l; simpl; split; congruence. Qed.

(** C4 (as amended).  When the target column is absent from the training
    table, [train_arima] fails naming the target column, and only it.
    When the target is present and some feature column is absent, it
    fails naming exactly the absent feature columns, in the order of the
    feature list.  In both cases the service is left as it was: model,
    model information, training and testing data, predictions. *)
Theorem train_arima_missing_columns (self : ModelService.t Model)
  (training : DataFrame) (target : string) (features : list string)
  (test : option DataFrame) :
  let missing := filter (fun f => negb (Frame.has_column training f)) features in
  Frame.has_column training target = false \/ missing <> [] ->
  exists e,
    ModelService.train_arima auto_arima model_order model_aic model_summary_text
      self training target features test = (Raise e, self)
    /\ (Frame.has_column training target = false ->
        e = TargetColumnNotFound target /\ named_columns e = [target])
    /\ (Frame.has_column training target = true ->
        e = FeaturesNotFound missing
        /\ named_columns e = missing
        /\ forall f, In f (named_columns e)
                     <-> In f features /\ ~ In f (Frame.column_names training)).
Proof.
  intros missing H. unfold ModelService.train_arima, ModelService.fit.
  destruct (Frame.has_column training target) eqn:Ht; simpl.
  - destruct H as [H|H]; [discriminate|]. fold missing.
    apply truthy_nonempty in H. rewrite H.
    exists (FeaturesNotFound missing). split; [reflexivity|].
    split; [discriminate|]. intros _. split; [reflexivity|]. split; [reflexivity|].
    intros f. simpl. unfold missing. rewrite filter_In, negb_true_iff.
    rewrite <- has_column_In. destruct (Frame.has_column training f); split.
    + intros [_ Hf]. discriminate.
    + intros [_ Hf]. exfalso. apply Hf. reflexivity.
    + intros [Hin _]. split; [exact Hin|discriminate].
    + intros [Hin _]. split; [exact Hin|reflexivity].
  - exists (TargetColumnNotFound target). split; [reflexivity|].
    split; [|discriminate]. intros _. split; reflexivity.
Qed.

End Training.

Lemma train_arima_missing_columns_witness :
  exists e,
    Reference.train_arima Sample.fresh Sample.prices "VWAP" ["High"; "Volume"; "Close"] None
    = (Raise e, Sample.fresh)
    /\ named_columns e = ["Volume"; "Close"].
Proof.
  destruct (@train_arima_missing_columns Reference.Model Reference.auto_arima
              Reference.model_order Reference.model_aic Reference.model_summary_text
              Sample.fresh Sample.prices "VWAP" ["High"; "Volume"; "Close"] None)
    as (e & Hrun & _ & Hfeat).
  - right. discriminate.
  - exists e. split; [exact Hrun|]. apply Hfeat. reflexivity.
Defined.

(** C4, the claim as stated fails: when the target column is absent the
    error names the target only, not the absent feature columns. *)
Lemma train_arima_names_target_only_counterexample :
  exists e,
    Reference.train_arima Sample.fresh Sample.prices "Close" ["High"; "Volume"] None
    = (Raise e, Sample.fresh)
    /\ In "Volume" ["High"; "Volume"]
    /\ ~ In "Volume" (Frame.column_names Sample.prices)
    /\ ~ In "Volume" (named_columns e).
Proof.
  exists (TargetColumnNotFound "Close"). split; [reflexivity|].
  split; [right; left; reflexivity|].
  split; simpl; intros H; repeat (destruct H as [H|H]; [discriminate H|]); exact H.
Qed.

(** ** predict *)

Section Prediction.

Variable Model : Type.
Variable model_predict : Model -> Z -> option (list (list float)) -> result (list float).

(** What a successful [predict] stores: the new forecast always; the
    actual series only when the answer carries a non-empty one, and
    otherwise whatever [self.actual_values] held before the call. *)
Lemma predict_stored_pair (self after : ModelService.t Model) (n : option Z)
  (X : option (list (list float))) (answer : ModelService.Prediction) :
  ModelService.predict model_predict self n X = (Ok answer, after) ->
  option_map values (ModelService.predictions after)
  = Some (ModelService.forecast_values answer)
  /\ match ModelService.actual answer with
     | Some (x :: rest) =>
         ModelService.actual_values after
         = Some (mkSeries (x :: rest) (ModelService.dates answer))
     | _ => ModelService.actual_values after = ModelService.actual_values self
     end.
Proof.
  unfold ModelService.predict.
  destruct (ModelService.forecast model_predict self n X)
    as [[[[k fc] ds] act]|e]; [|discriminate].
  unfold ModelService.make_series.
  destruct (List.length fc =? List.length _)%nat; [|discriminate].
  destruct act as [[|x rest]|].
  - intros E. injection E as <- <-. split; reflexivity.
  - destruct (List.length (x :: rest) =? List.length ds)%nat; [|discriminate].
    intros E. injection E as <- <-. split; reflexivity.
  - intros E. injection E as <- <-. split; reflexivity.
Qed.

End Prediction.

(** C8, the code at the failing input.  After a forecast with held-out
    actual values, the model is trained again without held-out data and
    [predict(n_periods=3)] succeeds: the answer carries no actual series
    and the stored predictions are the three new values, yet
    [self.actual_values] still holds the two actual values of the earlier
    forecast, and [calculate_metrics] pairs the new forecast with them. *)
Theorem predict_keeps_stale_actual_values :
  ModelService.actual_values Sample.predicted = Some (mkSeries [12; 13]%float [4; 5])
  /\ ModelService.testing_data Sample.retrained = None
  /\ exists answer after,
       Reference.predict Sample.retrained (Some 3) None = (Ok answer, after)
       /\ ModelService.actual answer = None
       /\ ModelService.forecast_values answer = [13; 13; 13]%float
       /\ option_map values (ModelService.predictions after) = Some [13; 13; 13]%float
       /\ ModelService.actual_values after = Some (mkSeries [12; 13]%float [4; 5])
       /\ exists m, Reference.calculate_metrics after = Ok m.
Proof.
  split; [reflexivity|]. split; [reflexivity|].
  eexists _, _. split; [reflexivity|].
  repeat (split; [reflexivity|]).
  eexists. vm_compute. reflexivity.
Qed.

(** ** Arrays, masks and positions *)

Lemma positions_ext (p q : nat -> bool) (n : nat) :
  (forall i, (i < n)%nat -> p i = q i) -> positions p n = positions q n.
Proof.
  intros H. unfold positions. apply filter_ext_in.
  intros i Hi. apply in_seq in Hi. apply H. lia.
Qed.

Lemma positions_In (p : nat -> bool) (n i : nat) :
  In i (positions p n) <-> (i < n)%nat /\ p i = true.
Proof.
  unfold positions. rewrite filter_In, in_seq. intuition lia.
Qed.

Lemma filter_seq_shift (p : nat -> bool) (start n : nat) :
  filter p (seq (S start) n) = map S (filter (fun i => p (S i)) (seq start n)).
Proof.
  rewrite <- seq_shift. induction (seq start n) as [|i l IH]; simpl; [reflexivity|].
  destruct (p (S i)); simpl; rewrite IH; reflexivity.
Qed.

Lemma select_positions {A : Type} (d : A) (mask : list bool) (l : list A) :
  List.length mask = List.length l ->
  Py.select mask l
  = map (fun i => nth i l d) (positions (fun i => nth i mask false) (List.length l)).
Proof.
  revert mask. induction l as [|x l IH]; intros [|b mask] Hlen;
    try discriminate; [reflexivity|].
  injection Hlen as Hlen. specialize (IH mask Hlen).
  unfold positions in *. simpl List.length. cbn [seq filter].
  rewrite filter_seq_shift.
  destruct b; cbn [nth Py.select map]; rewrite map_map, IH; reflexivity.
Qed.

Lemma any_positions (mask : list bool) :
  Np.any mask = false <-> positions (fun i => nth i mask false) (List.length mask) = [].
Proof.
  unfold Np.any, positions. induction mask as [|b mask IH]; [simpl; tauto|].
  simpl List.length. cbn [seq filter nth existsb]. rewrite filter_seq_shift.
  destruct b; simpl.
  - split; discriminate.
  - rewrite IH. destruct (filter _ (seq 0 (List.length mask))); simpl; split; congruence.
Qed.

Lemma zip_with_length {A B C : Type} (f : A -> B -> C) (l : list A) (r : list B) :
  List.length (Np.zip_with f l r) = Nat.min (List.length l) (List.length r).
Proof.
  revert r. induction l as [|x l IH]; intros [|y r]; simpl; try reflexivity.
  rewrite IH. reflexivity.
Qed.

Lemma zip_with_nth {A B C : Type} (f : A -> B -> C) (da : A) (db : B) (dc : C)
  (l : list A) (r : list B) (i : nat) :
  (i < List.length l)%nat -> (i < List.length r)%nat ->
  nth i (Np.zip_with f l r) dc = f (nth i l da) (nth i r db).
Proof.
  revert r i. induction l as [|x l IH]; intros [|y r] [|i] Hl Hr; simpl in *;
    try lia; [reflexivity|].
  apply IH; lia.
Qed.

Lemma zip_with_map {I A B C : Type} (f : A -> B -> C) (g : I -> A) (h : I -> B)
  (l : list I) :
  Np.zip_with f (map g l) (map h l) = map (fun i => f (g i) (h i)) l.
Proof. induction l as [|i l IH]; simpl; [reflexivity|]. rewrite IH. reflexivity. Qed.

Lemma select_map_map {I A B : Type} (g : A -> bool) (f : I -> A) (h : I -> B)
  (l : list I) :
  Py.select (map g (map f l)) (map h l) = map h (filter (fun i => g (f i)) l).
Proof.
  induction l as [|i l IH]; simpl; [reflexivity|].
  destruct (g (f i)); simpl; rewrite IH; reflexivity.
Qed.

Lemma any_map_filter {I A : Type} (g : A -> bool) (f : I -> A) (l : list I) :
  Np.any (map g (map f l)) = negb (Nat.eqb (List.length (filter (fun i => g (f i)) l)) 0).
Proof.
  unfold Np.any. induction l as [|i l IH]; simpl; [reflexivity|].
  destruct (g (f i)); simpl; [reflexivity|exact IH].
Qed.

Lemma count_true_positions (mask : list bool) :
  Np.count_true mask
  = List.length (positions (fun i => nth i mask false) (List.length mask)).
Proof.
  unfold Np.count_true.
  rewrite <- (length_map (fun i => nth i mask false)
                (positions (fun i => nth i mask false) (List.length mask))).
  rewrite <- (select_positions false mask mask eq_refl).
  induction mask as [|b mask IH]; simpl; [reflexivity|].
  destruct b; simpl; rewrite IH; reflexivity.
Qed.

Lemma diff_length (l : list float) : List.length (Np.diff l) = (List.length l - 1)%nat.
Proof.
  induction l as [|x [|y l] IH]; simpl in *; try reflexivity.
  rewrite IH. lia.
Qed.

Lemma diff_nth (l : list float) (j : nat) (d : float) :
  (S j < List.length l)%nat ->
  nth j (Np.diff l) d = (nth (S j) l d - nth j l d)%float.
Proof.
  revert j. induction l as [|x [|y l] IH]; intros j Hj; simpl in Hj; try lia.
  destruct j as [|j]; [reflexivity|].
  change (Np.diff (x :: y :: l)) with ((y - x)%float :: Np.diff (y :: l)).
  cbn [nth]. rewrite IH by (simpl; lia). reflexivity.
Qed.

(** ** Finite, infinite and missing values *)

Lemma SFeqb_refl_not_nan (s : SpecFloat.spec_float) :
  s <> SpecFloat.S754_nan -> SpecFloat.SFeqb s s = true.
Proof.
  intros Hs. unfold SpecFloat.SFeqb, SpecFloat.SFcompare.
  destruct s as [[|]|[|]| |[|] m e]; try reflexivity; try congruence;
    rewrite Z.compare_refl;
    rewrite Pos.compare_cont_refl; reflexivity.
Qed.

Lemma nan_not_infinity (x : float) : is_nan x = true -> is_infinity x = false.
Proof.
  unfold is_nan, is_infinity. rewrite !FloatAxioms.eqb_spec, FloatAxioms.abs_spec.
  destruct (Prim2SF x) eqn:E; intros H.
  - rewrite SFeqb_refl_not_nan in H by discriminate. discriminate.
  - rewrite SFeqb_refl_not_nan in H by discriminate. discriminate.
  - reflexivity.
  - rewrite SFeqb_refl_not_nan in H by discriminate. discriminate.
Qed.

Lemma count_non_finite (l : list float) :
  Np.count (fun x => negb (is_finite x)) l
  = (Np.count is_nan l + Np.count is_infinity l)%nat.
Proof.
  unfold Np.count. induction l as [|x l IH]; simpl; [reflexivity|].
  unfold is_finite at 1. rewrite negb_involutive.
  destruct (is_nan x) eqn:En.
  - rewrite (nan_not_infinity x En). simpl. rewrite IH. reflexivity.
  - destruct (is_infinity x); simpl; rewrite IH; lia.
Qed.

(** ** calculate_metrics *)

Section Metrics.

Variable Model : Type.
Variable mean_squared_error : list float -> list float -> float.
Variable mean_absolute_error : list float -> list float -> float.
Variable np_mean : list float -> float.

Let metrics (self : ModelService.t Model) : result ModelService.Metrics :=
  ModelService.calculate_metrics mean_squared_error mean_absolute_error np_mean self.

Lemma existsb_none {A : Type} (f : A -> bool) (l : list A) :
  (forall x, In x l -> f x = false) -> existsb f l = false.
Proof.
  intros H. destruct (existsb f l) eqn:E; [|reflexivity].
  apply existsb_exists in E. destruct E as (x & Hx & Hf).
  rewrite (H x Hx) in Hf. discriminate.
Qed.

(** The truncated arrays and the validity mask, by position. *)
Lemma valid_mask_positions (pv av : list float) :
  let n := Nat.min (List.length pv) (List.length av) in
  let mask :=
    Np.zip_with (fun p a => is_finite p && is_finite a) (firstn n pv) (firstn n av) in
  List.length (firstn n pv) = n
  /\ List.length (firstn n av) = n
  /\ List.length mask = n
  /\ positions (fun i => nth i mask false) n
     = positions (fun i => is_finite (nth i pv nan) && is_finite (nth i av nan)) n
  /\ (forall i, (i < n)%nat -> nth i (firstn n pv) nan = nth i pv nan)
  /\ (forall i, (i < n)%nat -> nth i (firstn n av) nan = nth i av nan).
Proof.
  intros n mask.
  assert (Hp : List.length (firstn n pv) = n) by (rewrite length_firstn; lia).
  assert (Ha : List.length (firstn n av) = n) by (rewrite length_firstn; lia).
  assert (Hnp : forall i, (i < n)%nat -> nth i (firstn n pv) nan = nth i pv nan).
  { intros i Hi. rewrite nth_firstn. apply Nat.ltb_lt in Hi. rewrite Hi. reflexivity. }
  assert (Hna : forall i, (i < n)%nat -> nth i (firstn n av) nan = nth i av nan).
  { intros i Hi. rewrite nth_firstn. apply Nat.ltb_lt in Hi. rewrite Hi. reflexivity. }
  repeat split; try assumption.
  - unfold mask. rewrite zip_with_length, Hp, Ha. lia.
  - apply positions_ext. intros i Hi. unfold mask.
    rewrite (zip_with_nth _ nan nan false) by lia.
    rewrite Hnp, Hna by assumption. reflexivity.
Qed.

Lemma calculate_metrics_on_kept (self : ModelService.t Model) (P A : Series) :
  ModelService.predictions self = Some P ->
  ModelService.actual_values self = Some A ->
  let n := Nat.min (List.length (values P)) (List.length (values A)) in
  let pred i := nth i (values P) nan in
  let act i := nth i (values A) nan in
  let kept := positions (fun i => is_finite (pred i) && is_finite (act i)) n in
  kept <> [] ->
  metrics self
  = Ok (ModelService.mkMetrics
          (mean_squared_error (map act kept) (map pred kept))
          (PrimFloat.sqrt (mean_squared_error (map act kept) (map pred kept)))
          (mean_absolute_error (map act kept) (map pred kept))
          (ModelService.percentage_error np_mean (map act kept) (map pred kept))
          (ModelService.direction_agreement (map act kept) (map pred kept))).
Proof.
  intros HP HA n pred act kept Hkept.
  unfold metrics, ModelService.calculate_metrics. rewrite HP, HA. fold n.
  destruct (valid_mask_positions (values P) (values A))
    as (Hlp & Hla & Hlm & Hpos & Hnp & Hna).
  fold n in Hlp, Hla, Hlm, Hpos, Hnp, Hna.
  set (mask := Np.zip_with (fun p a => is_finite p && is_finite a)
                 (firstn n (values P)) (firstn n (values A))) in *.
  fold pred act in Hpos. fold kept in Hpos.
  assert (Hn : n <> 0%nat).
  { intros E. apply Hkept. unfold kept. rewrite E. reflexivity. }
  destruct (Nat.eqb_spec n 0) as [E|_]; [contradiction|].
  destruct (Np.any mask) eqn:Hany.
  2:{ apply any_positions in Hany. rewrite Hlm, Hpos in Hany. contradiction. }
  simpl negb. cbv iota.
  assert (Hpc : Py.select mask (firstn n (values P)) = map pred kept).
  { rewrite (select_positions nan mask (firstn n (values P))) by congruence.
    rewrite Hlp, Hpos. apply map_ext_in. intros i Hi.
    apply positions_In in Hi. apply Hnp, Hi. }
  assert (Hac : Py.select mask (firstn n (values A)) = map act kept).
  { rewrite (select_positions nan mask (firstn n (values A))) by congruence.
    rewrite Hla, Hpos. apply map_ext_in. intros i Hi.
    apply positions_In in Hi. apply Hna, Hi. }
  rewrite Hpc, Hac.
  destruct (Nat.eqb_spec (List.length (map pred kept)) 0) as [E|_].
  { rewrite length_map in E. destruct kept; [contradiction|discriminate]. }
  rewrite !existsb_none; [reflexivity| |].
  - intros x Hx. apply in_map_iff in Hx. destruct Hx as (i & <- & Hi).
    apply positions_In in Hi. destruct Hi as [_ Hi].
    apply andb_true_iff in Hi. destruct Hi as [_ Hi]. fold (act i). rewrite Hi. reflexivity.
  - intros x Hx. apply in_map_iff in Hx. destruct Hx as (i & <- & Hi).
    apply positions_In in Hi. destruct Hi as [_ Hi].
    apply andb_true_iff in Hi. destruct Hi as [Hi _]. fold (pred i). rewrite Hi. reflexivity.
Qed.

Lemma calculate_metrics_none_kept (self : ModelService.t Model) (P A : Series) :
  ModelService.predictions self = Some P ->
  ModelService.actual_values self = Some A ->
  let n := Nat.min (List.length (values P)) (List.length (values A)) in
  let pv := firstn n (values P) in
  let av := firstn n (values A) in
  (0 < n)%nat ->
  positions (fun i => is_finite (nth i (values P) nan) && is_finite (nth i (values A) nan)) n
  = [] ->
  metrics self
  = Raise (NoValidValues n (Np.count is_nan pv) (Np.count is_nan av)
                         (Np.count is_infinity pv) (Np.count is_infinity av)).
Proof.
  intros HP HA n pv av Hn Hkept.
  unfold metrics, ModelService.calculate_metrics. rewrite HP, HA. fold n.
  destruct (valid_mask_positions (values P) (values A))
    as (Hlp & Hla & Hlm & Hpos & _).
  fold n in Hlp, Hla, Hlm, Hpos. fold pv av in Hlp, Hla, Hlm, Hpos |- *.
  set (mask := Np.zip_with (fun p a => is_finite p && is_finite a) pv av) in *.
  destruct (Nat.eqb_spec n 0) as [E|_]; [lia|].
  assert (Hany : Np.any mask = false).
  { apply any_positions. rewrite Hlm, Hpos. exact Hkept. }
  rewrite Hany. simpl. rewrite Hlp. reflexivity.
Qed.

Lemma filter_all {A : Type} (f : A -> bool) (l : list A) :
  (forall x, In x l -> f x = true) -> filter f l = l.
Proof.
  induction l as [|x l IH]; intros H; simpl; [reflexivity|].
  rewrite (H x (or_introl eq_refl)). f_equal. apply IH. intros y Hy. apply H. right. exact Hy.
Qed.

Lemma positions_all_but_one (p : nat -> bool) (n j : nat) :
  (j < n)%nat ->
  (forall i, (i < n)%nat -> (p i = false <-> i = j)) ->
  positions p n = seq 0 j ++ seq (S j) (n - S j).
Proof.
  intros Hj Hp. unfold positions.
  replace n with (j + S (n - S j))%nat at 1 by lia.
  rewrite seq_app, filter_app. simpl.
  assert (Hpj : p j = false) by (apply Hp; [lia|reflexivity]).
  rewrite Hpj. f_equal; apply filter_all; intros i Hi; apply in_seq in Hi.
  - destruct (p i) eqn:E; [reflexivity|]. apply Hp in E; lia.
  - destruct (p i) eqn:E; [reflexivity|]. apply Hp in E; lia.
Qed.

(** C7.  For a forecast/actual pair of positive common length [n], the
    positions [calculate_metrics] keeps are exactly the positions below
    [n] where both arrays hold a finite value.  When there are none, the
    call fails with the no-valid-data error, whose counts of NaN and of
    infinite values add up, for each array, to the number of its
    non-finite values.  Otherwise MSE, RMSE and MAE are computed on the
    kept positions only.  In particular, when the forecast is finite
    everywhere and the actual array is non-finite at position [j] only,
    the kept positions are all positions but [j]. *)
Theorem calculate_metrics_finite_subset (self : ModelService.t Model) (P A : Series) :
  ModelService.predictions self = Some P ->
  ModelService.actual_values self = Some A ->
  let n := Nat.min (List.length (values P)) (List.length (values A)) in
  let pred i := nth i (values P) nan in
  let act i := nth i (values A) nan in
  let kept := positions (fun i => is_finite (pred i) && is_finite (act i)) n in
  (0 < n)%nat ->
  (forall i, In i kept
             <-> (i < n)%nat /\ is_finite (pred i) = true /\ is_finite (act i) = true)
  /\ (kept = [] ->
      exists nan_pred nan_actual inf_pred inf_actual,
        ModelService.calculate_metrics mean_squared_error mean_absolute_error np_mean self
        = Raise (NoValidValues n nan_pred nan_actual inf_pred inf_actual)
        /\ (nan_pred + inf_pred
            = Np.count (fun x => negb (is_finite x)) (firstn n (values P)))%nat
        /\ (nan_actual + inf_actual
            = Np.count (fun x => negb (is_finite x)) (firstn n (values A)))%nat)
  /\ (kept <> [] ->
      exists m,
        ModelService.calculate_metrics mean_squared_error mean_absolute_error np_mean self
        = Ok m
        /\ ModelService.mse m = mean_squared_error (map act kept) (map pred kept)
        /\ ModelService.rmse m = PrimFloat.sqrt (ModelService.mse m)
        /\ ModelService.mae m = mean_absolute_error (map act kept) (map pred kept))
  /\ (forall j, (j < n)%nat ->
      (forall i, (i < n)%nat -> is_finite (pred i) = true) ->
      (forall i, (i < n)%nat -> (is_finite (act i) = false <-> i = j)) ->
      kept = seq 0 j ++ seq (S j) (n - S j)).
Proof.
  intros HP HA n pred act kept Hn. split; [|split; [|split]].
  - intros i. unfold kept. rewrite positions_In, andb_true_iff. tauto.
  - intros Hkept.
    exists (Np.count is_nan (firstn n (values P))), (Np.count is_nan (firstn n (values A))),
           (Np.count is_infinity (firstn n (values P))),
           (Np.count is_infinity (firstn n (values A))).
    split; [apply (calculate_metrics_none_kept self HP HA Hn Hkept)|].
    rewrite !count_non_finite. split; reflexivity.
  - intros Hkept. eexists. split; [apply (calculate_metrics_on_kept self HP HA Hkept)|].
    repeat split.
  - intros j Hj Hpred Hact. apply positions_all_but_one; [exact Hj|].
    intros i Hi. rewrite (Hpred i Hi). simpl. apply Hact, Hi.
Qed.

(** C6 (as amended).  For a forecast/actual pair with at least one position
    where both values are finite, [calculate_metrics] returns, and MAPE is
    computed over exactly the positions where both values are finite and
    [|actual| > 1e-10]: the mean of [|(actual - pred) / actual|] there,
    times 100.  When no such position exists MAPE is the absent value. *)
Theorem calculate_metrics_mape (self : ModelService.t Model) (P A : Series) :
  ModelService.predictions self = Some P ->
  ModelService.actual_values self = Some A ->
  let n := Nat.min (List.length (values P)) (List.length (values A)) in
  let pred i := nth i (values P) nan in
  let act i := nth i (values A) nan in
  let kept := positions (fun i => is_finite (pred i) && is_finite (act i)) n in
  let used := filter (fun i => (ModelService.mape_threshold <? abs (act i))%float) kept in
  kept <> [] ->
  (forall i, In i used
             <-> (i < n)%nat /\ is_finite (pred i) = true /\ is_finite (act i) = true
                 /\ (ModelService.mape_threshold <? abs (act i))%float = true)
  /\ exists m,
      ModelService.calculate_metrics mean_squared_error mean_absolute_error np_mean self
      = Ok m
      /\ ModelService.mape m
         = match used with
           | [] => None
           | _ :: _ =>
               Some (np_mean (map (fun i => abs ((act i - pred i) / act i))%float used)
                     * Np.hundred)%float
           end.
Proof.
  intros HP HA n pred act kept used Hkept. split.
  - intros i. unfold used, kept. rewrite filter_In, positions_In, andb_true_iff. tauto.
  - assert (Hmape :
      ModelService.percentage_error np_mean (map act kept) (map pred kept)
      = match used with
        | [] => None
        | _ :: _ =>
            Some (np_mean (map (fun i => abs ((act i - pred i) / act i))%float used)
                  * Np.hundred)%float
        end).
    { unfold ModelService.percentage_error.
      rewrite any_map_filter, !select_map_map, zip_with_map. cbv beta. fold used.
      destruct used; reflexivity. }
    eexists. split; [apply (calculate_metrics_on_kept self HP HA Hkept)|].
    exact Hmape.
Qed.

(** C5 (as amended).  For a forecast/actual pair with at least one position
    where both values are finite, [calculate_metrics] returns.  With the
    arrays restricted to those positions, directional accuracy is the
    absent value when fewer than two positions remain; otherwise it is
    100 times the fraction of consecutive pairs [j, j+1] on which the two
    series agree on whether they rise: [actual[j+1] - actual[j] > 0]
    exactly when [pred[j+1] - pred[j] > 0].  On actual [1,2,1,3] against
    predicted [1,3,0,4] it is 100. *)
Theorem calculate_metrics_direction (self : ModelService.t Model) (P A : Series) :
  ModelService.predictions self = Some P ->
  ModelService.actual_values self = Some A ->
  let n := Nat.min (List.length (values P)) (List.length (values A)) in
  let kept :=
    positions (fun i => is_finite (nth i (values P) nan) && is_finite (nth i (values A) nan))
              n in
  let actual_clean := map (fun i => nth i (values A) nan) kept in
  let pred_clean := map (fun i => nth i (values P) nan) kept in
  let rises (l : list float) (j : nat) := (0 <? nth (S j) l nan - nth j l nan)%float in
  let agreeing :=
    positions (fun j => Bool.eqb (rises actual_clean j) (rises pred_clean j))
              (List.length kept - 1) in
  kept <> [] ->
  exists m,
    ModelService.calculate_metrics mean_squared_error mean_absolute_error np_mean self
    = Ok m
    /\ ModelService.directional_accuracy m
       = (if (List.length kept <? 2)%nat then None
          else Some (Np.of_nat (List.length agreeing)
                     / Np.of_nat (List.length kept - 1) * Np.hundred)%float)
    /\ (values A = [1; 2; 1; 3]%float -> values P = [1; 3; 0; 4]%float ->
        ModelService.directional_accuracy m = Some 100%float).
Proof.
  intros HP HA n kept actual_clean pred_clean rises agreeing Hkept.
  eexists. split; [apply (calculate_metrics_on_kept self HP HA Hkept)|].
  change (ModelService.directional_accuracy _)
    with (ModelService.direction_agreement actual_clean pred_clean).
  split.
  - unfold ModelService.direction_agreement.
    assert (Hla : List.length actual_clean = List.length kept) by apply length_map.
    assert (Hlp : List.length pred_clean = List.length kept) by apply length_map.
    rewrite Hla.
    destruct (List.length kept <? 2)%nat eqn:E2.
    + apply Nat.ltb_lt in E2.
      destruct (Nat.ltb_spec 1 (List.length kept)); [lia|reflexivity].
    + apply Nat.ltb_ge in E2.
      destruct (Nat.ltb_spec 1 (List.length kept)); [|lia].
      set (up := fun d => (0 <? d)%float).
      set (zipped := Np.zip_with Bool.eqb (map up (Np.diff actual_clean))
                                 (map up (Np.diff pred_clean))).
      assert (Hlz : List.length zipped = (List.length kept - 1)%nat).
      { unfold zipped. rewrite zip_with_length, !length_map, !diff_length. lia. }
      assert (Hagree :
        positions (fun j => nth j zipped false) (List.length kept - 1) = agreeing).
      { unfold agreeing. apply positions_ext. intros j Hj.
        unfold zipped. rewrite (zip_with_nth _ (up nan) (up nan) false)
          by (rewrite length_map, diff_length; lia).
        rewrite !map_nth, !diff_nth by lia. reflexivity. }
      unfold Np.mean_bool. rewrite count_true_positions, Hlz, Hagree. reflexivity.
  - intros EA EP. unfold actual_clean, pred_clean, kept, n.
    rewrite EA, EP. vm_compute. reflexivity.
Qed.

End Metrics.

Lemma calculate_metrics_finite_subset_witness :
  (exists m,
     Reference.calculate_metrics (Sample.holding [1; 2; 3] [1; nan; 4])%float = Ok m
     /\ ModelService.mse m = Reference.mean_squared_error [1; 4]%float [1; 3]%float
     /\ ModelService.mae m = Reference.mean_absolute_error [1; 4]%float [1; 3]%float
     /\ ModelService.mse m = 0.5%float)
  /\ (exists nan_pred nan_actual inf_pred inf_actual,
        Reference.calculate_metrics (Sample.holding [nan; 1] [2; infinity])%float
        = Raise (NoValidValues 2 nan_pred nan_actual inf_pred inf_actual)
        /\ (nan_pred + inf_pred = 1)%nat /\ (nan_actual + inf_actual = 1)%nat).
Proof.
  split.
  - destruct (@calculate_metrics_finite_subset Reference.Model
                Reference.mean_squared_error Reference.mean_absolute_error Reference.mean
                (Sample.holding [1; 2; 3] [1; nan; 4])%float _ _ eq_refl eq_refl)
      as (_ & _ & Hok & _).
    + simpl. lia.
    + destruct Hok as (m & Hm & Hmse & _ & Hmae); [discriminate|].
      exists m. split; [exact Hm|]. split; [exact Hmse|]. split; [exact Hmae|].
      rewrite Hmse. reflexivity.
  - destruct (@calculate_metrics_finite_subset Reference.Model
                Reference.mean_squared_error Reference.mean_absolute_error Reference.mean
                (Sample.holding [nan; 1] [2; infinity])%float _ _ eq_refl eq_refl)
      as (_ & Hnone & _).
    + simpl. lia.
    + destruct Hnone as (a & b & c & d & Hm & Hp & Ha); [reflexivity|].
      exists a, b, c, d. split; [exact Hm|]. split; [exact Hp|exact Ha].
Defined.

Lemma calculate_metrics_mape_witness :
  (exists m,
     Reference.calculate_metrics (Sample.holding [1; 2; 3] [1; 2; 4])%float = Ok m
     /\ ModelService.mape m = Some (Reference.mean [0; 0; 0.25] * 100)%float)
  /\ (exists m,
        Reference.calculate_metrics (Sample.holding [1; 2] [0; 0])%float = Ok m
        /\ ModelService.mape m = None).
Proof.
  split.
  - destruct (@calculate_metrics_mape Reference.Model
                Reference.mean_squared_error Reference.mean_absolute_error Reference.mean
                (Sample.holding [1; 2; 3] [1; 2; 4])%float _ _ eq_refl eq_refl)
      as (_ & m & Hm & Hmape); [discriminate|].
    exists m. split; [exact Hm|]. rewrite Hmape. reflexivity.
  - destruct (@calculate_metrics_mape Reference.Model
                Reference.mean_squared_error Reference.mean_absolute_error Reference.mean
                (Sample.holding [1; 2] [0; 0])%float _ _ eq_refl eq_refl)
      as (_ & m & Hm & Hmape); [discriminate|].
    exists m. split; [exact Hm|]. rewrite Hmape. reflexivity.
Defined.

(** C6, the claim as stated fails on a pair without any position where
    both values are finite: no finite-valued position with
    [|actual| > 1e-10] exists, and the call is an error instead of a
    report with an absent MAPE. *)
Lemma calculate_metrics_mape_counterexample :
  positions (fun i => is_finite (nth i [nan] nan) && is_finite (nth i [1]%float nan)) 1 = []
  /\ Reference.calculate_metrics (Sample.holding [nan] [1]%float)
     = Raise (NoValidValues 1 1 0 0 0).
Proof. split; reflexivity. Qed.

Lemma calculate_metrics_direction_witness :
  exists m,
    Reference.calculate_metrics (Sample.holding [1; 3; 0; 4] [1; 2; 1; 3])%float = Ok m
    /\ ModelService.directional_accuracy m = Some 100%float.
Proof.
  destruct (@calculate_metrics_direction Reference.Model
              Reference.mean_squared_error Reference.mean_absolute_error Reference.mean
              (Sample.holding [1; 3; 0; 4] [1; 2; 1; 3])%float _ _ eq_refl eq_refl)
    as (m & Hm & _ & Hex); [discriminate|].
  exists m. split; [exact Hm|]. apply Hex; reflexivity.
Defined.

(** C5, the claim as stated fails: on actual [1,1] against predicted
    [2,1] the signs of the changes differ (0 against -1), so agreement of
    signs holds on no pair, yet the code reports 100: it compares whether
    each series rises, and neither does. *)
Lemma calculate_metrics_direction_counterexample :
  directional_accuracy_by_sign [1; 1]%float [2; 1]%float = 0%float
  /\ exists m,
       Reference.calculate_metrics (Sample.holding [2; 1] [1; 1])%float = Ok m
       /\ ModelService.directional_accuracy m = Some 100%float
       /\ ModelService.directional_accuracy m
          <> Some (directional_accuracy_by_sign [1; 1]%float [2; 1]%float).
Proof.
  split; [reflexivity|]. eexists. split; [reflexivity|]. split; [reflexivity|].
  intros H.
  apply (f_equal (fun o => match o with
                           | Some x => (x =? 0)%float
                           | None => false
                           end)) in H.
  vm_compute in H. discriminate H.
Qed.

(** ** Feature names *)

Lemma append_assoc (a b c : string) : ((a ++ b) ++ c)%string = (a ++ (b ++ c))%string.
Proof. induction a as [|x a IH]; simpl; [reflexivity|]. rewrite IH. reflexivity. Qed.

Lemma occurs_append (c : ascii) (a b : string) :
  occurs c (a ++ b)%string = occurs c a || occurs c b.
Proof.
  induction a as [|x a IH]; simpl; [reflexivity|].
  rewrite IH, orb_assoc. reflexivity.
Qed.

(** A string splits in one way only at the last occurrence of a character. *)
Lemma split_at_last (c : ascii) (p1 p2 d1 d2 : string) :
  occurs c d1 = false -> occurs c d2 = false ->
  (p1 ++ String c d1)%string = (p2 ++ String c d2)%string ->
  p1 = p2 /\ d1 = d2.
Proof.
  intros H1 H2. revert p2.
  induction p1 as [|x p1 IH]; intros [|y p2] E; simpl in E.
  - injection E as ->. split; reflexivity.
  - injection E as <- ->. rewrite occurs_append in H1. simpl in H1.
    rewrite Ascii.eqb_refl in H1. simpl in H1.
    rewrite orb_true_r in H1. discriminate.
  - injection E as -> <-. rewrite occurs_append in H2. simpl in H2.
    rewrite Ascii.eqb_refl in H2. simpl in H2.
    rewrite orb_true_r in H2. discriminate.
  - injection E as -> E. destruct (IH p2 E) as [-> ->]. split; reflexivity.
Qed.

Lemma digits_without_underscore (d : Decimal.uint) :
  occurs "_" (NilEmpty.string_of_uint d) = false.
Proof. induction d; simpl; assumption || reflexivity. Qed.

Lemma str_without_underscore (k : Z) : occurs "_" (Py.str k) = false.
Proof.
  unfold Py.str, NilZero.string_of_int, NilZero.string_of_uint.
  destruct (Z.to_int k) as [d|d]; destruct d; simpl;
    try reflexivity; apply digits_without_underscore.
Qed.

Lemma to_int_normal (k : Z) : Z.to_int k = Decimal.norm (Z.to_int k).
Proof. rewrite <- DecimalZ.to_of, DecimalZ.of_to. reflexivity. Qed.

Lemma str_injective (k1 k2 : Z) : Py.str k1 = Py.str k2 -> k1 = k2.
Proof.
  unfold Py.str. intros E. apply DecimalZ.to_int_inj.
  assert (Hn : forall k, NilZero.int_of_string (NilZero.string_of_int (Z.to_int k))
                         = Some (Z.to_int k)).
  { intros k. apply NilZero.isi; intros H; pose proof (to_int_normal k) as N;
      rewrite H in N; discriminate N. }
  pose proof (Hn k1) as E1. rewrite E, Hn in E1. injection E1 as E1. symmetry. exact E1.
Qed.

Lemma statistic_name_without_underscore (s : FeatureEngineer.Statistic) :
  occurs "_" (FeatureEngineer.statistic_name s) = false.
Proof. destruct s; reflexivity. Qed.

Lemma statistic_name_injective (s1 s2 : FeatureEngineer.Statistic) :
  FeatureEngineer.statistic_name s1 = FeatureEngineer.statistic_name s2 -> s1 = s2.
Proof. destruct s1, s2; simpl; intros E; reflexivity || discriminate E. Qed.

Lemma recognize_name (operation : string) (s : FeatureEngineer.Statistic) :
  FeatureEngineer.recognize operation = Some s ->
  FeatureEngineer.statistic_name s = operation.
Proof.
  unfold FeatureEngineer.recognize.
  destruct (String.eqb_spec operation "mean") as [->|_];
    [intros E; injection E as <-; reflexivity|].
  destruct (String.eqb_spec operation "std") as [->|_];
    [intros E; injection E as <-; reflexivity|].
  destruct (String.eqb_spec operation "min") as [->|_];
    [intros E; injection E as <-; reflexivity|].
  destruct (String.eqb_spec operation "max") as [->|_];
    [intros E; injection E as <-; reflexivity|].
  intros E. discriminate E.
Qed.

Lemma feature_name_parts (c : string) (s : FeatureEngineer.Statistic) (w : Z) :
  FeatureEngineer.feature_name c s w
  = (((c ++ "_rolling") ++ String "_" (FeatureEngineer.statistic_name s))
     ++ String "_" (Py.str w))%string.
Proof.
  unfold FeatureEngineer.feature_name. rewrite !append_assoc. reflexivity.
Qed.

Lemma append_cancel_right (a b t : string) : (a ++ t)%string = (b ++ t)%string -> a = b.
Proof.
  assert (L : forall x y, String.length (x ++ y)%string
                          = (String.length x + String.length y)%nat).
  { intros x y. induction x; simpl; congruence. }
  revert b. induction a as [|x a IH]; intros [|y b] E; simpl in E.
  - reflexivity.
  - apply (f_equal String.length) in E. simpl in E. rewrite L in E. lia.
  - apply (f_equal String.length) in E. simpl in E. rewrite L in E. lia.
  - injection E as -> E. f_equal. apply IH, E.
Qed.

(** The generated name determines the descriptor it was built from. *)
Lemma feature_name_injective (c1 c2 : string) (s1 s2 : FeatureEngineer.Statistic)
  (w1 w2 : Z) :
  FeatureEngineer.feature_name c1 s1 w1 = FeatureEngineer.feature_name c2 s2 w2 ->
  c1 = c2 /\ s1 = s2 /\ w1 = w2.
Proof.
  rewrite !feature_name_parts. intros E.
  apply split_at_last in E; try apply str_without_underscore.
  destruct E as [E Ew]. apply str_injective in Ew.
  apply split_at_last in E; try apply statistic_name_without_underscore.
  destruct E as [E Es]. apply statistic_name_injective in Es.
  apply append_cancel_right in E. repeat split; assumption.
Qed.

(** ** Columns of a frame *)

Lemma lookup_assign_same (name : string) (v : list float)
  (cols : list (string * list float)) :
  Frame.lookup name (Frame.assign name v cols) = Some v.
Proof.
  induction cols as [|[c u] cols IH]; simpl.
  - rewrite String.eqb_refl. reflexivity.
  - destruct (String.eqb_spec name c) as [->|Hne]; simpl.
    + rewrite String.eqb_refl. reflexivity.
    + destruct (String.eqb_spec name c); [contradiction|]. exact IH.
Qed.

Lemma lookup_assign_other (name other : string) (v : list float)
  (cols : list (string * list float)) :
  other <> name ->
  Frame.lookup other (Frame.assign name v cols) = Frame.lookup other cols.
Proof.
  intros Hne. induction cols as [|[c u] cols IH]; simpl.
  - destruct (String.eqb_spec other name); [contradiction|reflexivity].
  - destruct (String.eqb_spec name c) as [->|Hnc]; simpl.
    + destruct (String.eqb_spec other c); [contradiction|reflexivity].
    + destruct (String.eqb_spec other c); [reflexivity|exact IH].
Qed.

Lemma has_column_lookup (df : DataFrame) (name : string) :
  Frame.has_column df name
  = match Frame.lookup name (columns df) with
    | Some _ => true
    | None => false
    end.
Proof.
  unfold Frame.has_column, Frame.column_names.
  induction (columns df) as [|[c u] cols IH]; simpl; [reflexivity|].
  destruct (String.eqb name c); [reflexivity|exact IH].
Qed.

Lemma lookup_In (name : string) (v : list float) (cols : list (string * list float)) :
  Frame.lookup name cols = Some v -> In (name, v) cols.
Proof.
  induction cols as [|[c u] cols IH]; simpl; [discriminate|].
  destruct (String.eqb_spec name c) as [->|_].
  - intros E. injection E as ->. left. reflexivity.
  - intros E. right. apply IH, E.
Qed.

Lemma lookup_mask_rows (mask : list bool) (df : DataFrame) (name : string) :
  Frame.lookup name (columns (Frame.mask_rows mask df))
  = option_map (Py.select mask) (Frame.lookup name (columns df)).
Proof.
  unfold Frame.mask_rows. simpl.
  induction (columns df) as [|[c u] cols IH]; simpl; [reflexivity|].
  destruct (String.eqb name c); [reflexivity|exact IH].
Qed.

Lemma select_skip {A : Type} (k : nat) (mask : list bool) (l : list A) :
  (forall i, (i < k)%nat -> nth i mask false = false) ->
  Py.select mask l = Py.select (skipn k mask) (skipn k l).
Proof.
  revert mask l. induction k as [|k IH]; intros mask l H; [reflexivity|].
  destruct mask as [|b mask]; [destruct l; reflexivity|].
  destruct l as [|x l]; [simpl; destruct (skipn k mask); reflexivity|].
  assert (Hb : b = false) by (apply (H 0%nat); lia). subst b. simpl.
  apply IH. intros i Hi. apply (H (S i)). lia.
Qed.

Lemma nth_map_seq {A : Type} (f : nat -> A) (n i : nat) (d : A) :
  (i < n)%nat -> nth i (map f (seq 0 n)) d = f i.
Proof.
  intros Hi. rewrite (nth_indep _ d (f 0%nat)) by (rewrite length_map, length_seq; lia).
  rewrite map_nth, seq_nth by lia. reflexivity.
Qed.

(** ** generate_rolling_features *)

(* The lemmas of this part are applied with all their arguments. *)
Unset Implicit Arguments.

Section Features.

Variable stat : FeatureEngineer.Statistic -> list float -> float.

Section Loops.

Variable data : DataFrame.
Variable cols : list string.
Variable windows : list Z.
Hypothesis Hraw : raw_columns cols windows.

Lemma rolling_ok (s : FeatureEngineer.Statistic) (w : Z) (source : list float) :
  0 <= w -> FeatureEngineer.rolling stat s w source = Ok (rolled stat s w source).
Proof.
  intros Hw. unfold FeatureEngineer.rolling.
  destruct (Z.ltb_spec w 0); [lia|reflexivity].
Qed.

Lemma invariant_source (st : FeatureEngineer.Locals) (c : string) :
  loop_invariant stat data cols windows st -> In c cols ->
  Frame.lookup c (columns (FeatureEngineer.dataframe st)) = Frame.lookup c (columns data).
Proof.
  intros [_ Hinv] Hc. apply (Hinv c). intros Hin.
  destruct (proj1 (Hinv c) Hin) as (c' & s' & w' & src & Hc' & Hw' & Hname & _).
  exact (@Hraw c c' s' w' Hc Hc' Hw' Hname).
Qed.

Lemma operation_step_spec (col : string) (w : Z) (source : list float)
  (st : FeatureEngineer.Locals) (operation : string) :
  loop_invariant stat data cols windows st ->
  In col cols -> In w windows -> 0 <= w ->
  Frame.lookup col (columns data) = Some source ->
  exists st',
    FeatureEngineer.operation_step stat col w st operation = Ok st'
    /\ loop_invariant stat data cols windows st'
    /\ FeatureEngineer.feature_names st'
       = FeatureEngineer.feature_names st
         ++ (if recognized operation
             then [(col ++ "_rolling_" ++ operation ++ "_" ++ Py.str w)%string]
             else [])
    /\ FeatureEngineer.log st' = FeatureEngineer.log st.
Proof.
  intros Hinv Hcol Hw Hw0 Hsrc.
  unfold FeatureEngineer.operation_step, recognized.
  destruct (FeatureEngineer.recognize operation) as [s|] eqn:Hrec.
  2:{ exists st. rewrite app_nil_r. repeat split; try reflexivity; apply Hinv. }
  unfold Frame.get. rewrite (invariant_source st col Hinv Hcol), Hsrc. simpl bind.
  rewrite (rolling_ok s w source Hw0). simpl bind.
  eexists. split; [reflexivity|]. simpl.
  split; [|split; [|reflexivity]].
  - destruct Hinv as [Hidx Hinv]. split; [exact Hidx|]. simpl.
    intros name. set (new := FeatureEngineer.feature_name col s w).
    destruct (String.eqb_spec name new) as [->|Hne].
    + split.
      * intros _. exists col, s, w, source.
        repeat split; try assumption. apply lookup_assign_same.
      * intros Hnot. exfalso. apply Hnot, in_or_app. right. left. reflexivity.
    + rewrite (@lookup_assign_other _ _ _ _ Hne). split.
      * intros Hin. apply in_app_or in Hin. destruct Hin as [Hin|[Hin|[]]].
        -- apply (Hinv name), Hin.
        -- congruence.
      * intros Hnot. apply (Hinv name). intros Hin. apply Hnot, in_or_app.
        left. exact Hin.
  - unfold FeatureEngineer.feature_name. rewrite (@recognize_name _ _ Hrec). reflexivity.
Qed.

Lemma operations_loop (col : string) (w : Z) (source : list float)
  (operations : list string) :
  In col cols -> In w windows -> 0 <= w ->
  Frame.lookup col (columns data) = Some source ->
  forall st,
    loop_invariant stat data cols windows st ->
    exists st',
      FeatureEngineer.for_each (FeatureEngineer.operation_step stat col w) operations st
      = Ok st'
      /\ loop_invariant stat data cols windows st'
      /\ FeatureEngineer.feature_names st'
         = FeatureEngineer.feature_names st
           ++ map (fun operation =>
                     (col ++ "_rolling_" ++ operation ++ "_" ++ Py.str w)%string)
                  (filter recognized operations)
      /\ FeatureEngineer.log st' = FeatureEngineer.log st.
Proof.
  intros Hcol Hw Hw0 Hsrc.
  induction operations as [|operation rest IH]; intros st Hinv; simpl.
  - exists st. rewrite app_nil_r. repeat split; try reflexivity; apply Hinv.
  - destruct (operation_step_spec col w source st operation Hinv Hcol Hw Hw0 Hsrc)
      as (st1 & Hstep & Hinv1 & Hnames1 & Hlog1).
    rewrite Hstep. simpl bind.
    destruct (IH st1 Hinv1) as (st2 & Hloop & Hinv2 & Hnames2 & Hlog2).
    exists st2. split; [exact Hloop|]. split; [exact Hinv2|].
    split; [|congruence].
    rewrite Hnames2, Hnames1, <- app_assoc.
    destruct (recognized operation); reflexivity.
Qed.

Lemma windows_loop (col : string) (source : list float) (operations : list string)
  (ws : list Z) :
  In col cols ->
  Frame.lookup col (columns data) = Some source ->
  Forall (fun w => In w windows /\ 0 <= w) ws ->
  forall st,
    loop_invariant stat data cols windows st ->
    exists st',
      FeatureEngineer.for_each (FeatureEngineer.window_step stat operations col) ws st
      = Ok st'
      /\ loop_invariant stat data cols windows st'
      /\ FeatureEngineer.feature_names st'
         = FeatureEngineer.feature_names st
           ++ FeatureEngineer.get_rolling_feature_names [col] ws
                (Some (filter recognized operations))
      /\ FeatureEngineer.log st' = FeatureEngineer.log st.
Proof.
  intros Hcol Hsrc Hws.
  induction Hws as [|w ws [Hw Hw0] _ IH]; intros st Hinv; simpl.
  - exists st. rewrite app_nil_r. repeat split; try reflexivity; apply Hinv.
  - unfold FeatureEngineer.window_step at 1.
    destruct (operations_loop col w source operations Hcol Hw Hw0 Hsrc st Hinv)
      as (st1 & Hstep & Hinv1 & Hnames1 & Hlog1).
    rewrite Hstep. simpl bind.
    destruct (IH st1 Hinv1) as (st2 & Hloop & Hinv2 & Hnames2 & Hlog2).
    exists st2. split; [exact Hloop|]. split; [exact Hinv2|].
    split; [|congruence].
    rewrite Hnames2, Hnames1, <- app_assoc.
    unfold FeatureEngineer.get_rolling_feature_names. simpl.
    rewrite !app_nil_r. reflexivity.
Qed.

Lemma columns_loop (operations : list string) (cs : list string) :
  Forall (fun w => 0 <= w) windows ->
  Forall (fun c => In c cols) cs ->
  forall st,
    loop_invariant stat data cols windows st ->
    exists st',
      FeatureEngineer.for_each (FeatureEngineer.column_step stat windows operations) cs st
      = Ok st'
      /\ loop_invariant stat data cols windows st'
      /\ FeatureEngineer.feature_names st'
         = FeatureEngineer.feature_names st
           ++ FeatureEngineer.get_rolling_feature_names
                (filter (Frame.has_column data) cs) windows
                (Some (filter recognized operations))
      /\ FeatureEngineer.log st'
         = FeatureEngineer.log st
           ++ map FeatureEngineer.ColumnNotFound
                  (filter (fun c => negb (Frame.has_column data c)) cs).
Proof.
  intros Hw0 Hcs.
  assert (Hws : Forall (fun w => In w windows /\ 0 <= w) windows).
  { rewrite Forall_forall in *. intros w Hw. split; [exact Hw|apply Hw0, Hw]. }
  induction Hcs as [|c cs Hc _ IH]; intros st Hinv; simpl.
  - exists st. rewrite !app_nil_r. repeat split; try reflexivity; apply Hinv.
  - unfold FeatureEngineer.column_step at 1.
    rewrite (has_column_lookup (FeatureEngineer.dataframe st)).
    rewrite (invariant_source st c Hinv Hc).
    rewrite (has_column_lookup data).
    destruct (Frame.lookup c (columns data)) as [source|] eqn:Hsrc; simpl negb; cbv iota.
    + destruct (windows_loop c source operations windows Hc Hsrc Hws st Hinv)
        as (st1 & Hstep & Hinv1 & Hnames1 & Hlog1).
      rewrite Hstep. simpl bind.
      destruct (IH st1 Hinv1) as (st2 & Hloop & Hinv2 & Hnames2 & Hlog2).
      exists st2. split; [exact Hloop|]. split; [exact Hinv2|].
      split; [|congruence].
      rewrite Hnames2, Hnames1, <- app_assoc.
      unfold FeatureEngineer.get_rolling_feature_names. simpl.
      rewrite !app_nil_r. reflexivity.
    + simpl bind.
      assert (Hinv1 : loop_invariant stat data cols windows
                (FeatureEngineer.mkLocals (FeatureEngineer.dataframe st)
                   (FeatureEngineer.feature_names st)
                   (FeatureEngineer.log st ++ [FeatureEngineer.ColumnNotFound c])))
        by exact Hinv.
      destruct (IH _ Hinv1) as (st2 & Hloop & Hinv2 & Hnames2 & Hlog2).
      exists st2. split; [exact Hloop|]. split; [exact Hinv2|].
      split; [exact Hnames2|].
      rewrite Hlog2. simpl. rewrite <- app_assoc. reflexivity.
Qed.

End Loops.

Lemma augment_spec (data : DataFrame) (cols : list string) (windows : list Z)
  (operations : list string) :
  raw_columns cols windows ->
  Forall (fun w => 0 <= w) windows ->
  exists aug,
    FeatureEngineer.augment stat data cols windows operations = Ok aug
    /\ loop_invariant stat data cols windows aug
    /\ FeatureEngineer.feature_names aug
       = FeatureEngineer.get_rolling_feature_names
           (filter (Frame.has_column data) cols) windows
           (Some (filter recognized operations))
    /\ FeatureEngineer.log aug
       = map FeatureEngineer.ColumnNotFound
             (filter (fun c => negb (Frame.has_column data c)) cols).
Proof.
  intros Hraw Hw0. unfold FeatureEngineer.augment.
  apply (columns_loop data cols windows Hraw operations cols Hw0).
  - apply Forall_forall. intros c Hc. exact Hc.
  - split; [reflexivity|]. intros name. split; [intros []|reflexivity].
Qed.

(** *** Values of a rolled column *)

Lemma rolled_length (s : FeatureEngineer.Statistic) (w : Z) (source : list float) :
  List.length (rolled stat s w source) = List.length source.
Proof. unfold rolled. rewrite length_map, length_seq. reflexivity. Qed.

Lemma rolled_before_window (s : FeatureEngineer.Statistic) (w : Z) (source : list float)
  (i : nat) :
  (i + 1 < Z.to_nat w)%nat -> nth i (rolled stat s w source) nan = nan.
Proof.
  intros Hi. destruct (Nat.lt_ge_cases i (List.length source)) as [Hlt|Hge].
  - unfold rolled. rewrite nth_map_seq by exact Hlt.
    unfold FeatureEngineer.rolling_value.
    apply Nat.ltb_lt in Hi. rewrite Hi. reflexivity.
  - apply nth_overflow. rewrite rolled_length. exact Hge.
Qed.

Lemma rolled_full_window (s : FeatureEngineer.Statistic) (w : Z) (source : list float)
  (i : nat) :
  (Z.to_nat w <= i + 1)%nat -> (i < List.length source)%nat ->
  nth i (rolled stat s w source) nan
  = FeatureEngineer.aggregate stat s (FeatureEngineer.window_at source (Z.to_nat w) i).
Proof.
  intros Hw Hi. unfold rolled. rewrite nth_map_seq by exact Hi.
  unfold FeatureEngineer.rolling_value.
  destruct (Nat.ltb_spec (i + 1) (Z.to_nat w)); [lia|reflexivity].
Qed.

Lemma window_at_rows (source : list float) (w i j : nat) (d : float) :
  (w <= i + 1)%nat -> (j < w)%nat ->
  nth j (FeatureEngineer.window_at source w i) d = nth (i + 1 - w + j) source d.
Proof.
  intros Hw Hj. unfold FeatureEngineer.window_at.
  rewrite nth_firstn. apply Nat.ltb_lt in Hj. rewrite Hj.
  apply nth_skipn.
Qed.

Lemma window_at_first (source : list float) (w : nat) :
  (1 <= w)%nat -> FeatureEngineer.window_at source w (w - 1) = firstn w source.
Proof.
  intros Hw. unfold FeatureEngineer.window_at.
  replace (w - 1 + 1 - w)%nat with 0%nat by lia. reflexivity.
Qed.

(** *** Rows that [dropna] removes *)

Lemma forallb_one_false {A : Type} (f : A -> bool) (l : list A) (x : A) :
  In x l -> f x = false -> forallb f l = false.
Proof.
  intros Hin Hf. destruct (forallb f l) eqn:E; [|reflexivity].
  rewrite forallb_forall in E. rewrite (E x Hin) in Hf. discriminate.
Qed.

Lemma rows_with_missing_dropped (df : DataFrame) (name : string) (vals : list float)
  (k : nat) :
  Frame.lookup name (columns df) = Some vals ->
  (forall i, (i < k)%nat -> nth i vals nan = nan) ->
  forall i, (i < k)%nat -> nth i (FeatureEngineer.keep_mask df) false = false.
Proof.
  intros Hcol Hnan i Hi. unfold FeatureEngineer.keep_mask.
  destruct (Nat.lt_ge_cases i (Frame.len df)) as [Hlt|Hge].
  - rewrite nth_map_seq by exact Hlt. unfold FeatureEngineer.row_complete.
    apply (forallb_one_false _ _ (name, vals)); [apply lookup_In, Hcol|].
    simpl. rewrite (Hnan i Hi). reflexivity.
  - apply nth_overflow. rewrite length_map, length_seq. exact Hge.
Qed.

Lemma name_generated (data : DataFrame) (cols : list string) (windows : list Z)
  (operations : list string) (col operation : string) (s : FeatureEngineer.Statistic)
  (w : Z) :
  In col cols -> Frame.has_column data col = true -> In w windows ->
  In operation operations -> FeatureEngineer.recognize operation = Some s ->
  In (FeatureEngineer.feature_name col s w)
     (FeatureEngineer.get_rolling_feature_names
        (filter (Frame.has_column data) cols) windows
        (Some (filter recognized operations))).
Proof.
  intros Hcol Hpresent Hw Hop Hrec. unfold FeatureEngineer.get_rolling_feature_names.
  apply in_flat_map. exists col. split; [apply filter_In; split; assumption|].
  apply in_flat_map. exists w. split; [exact Hw|].
  apply in_map_iff. exists operation. split.
  - unfold FeatureEngineer.feature_name. rewrite (@recognize_name _ _ Hrec). reflexivity.
  - apply filter_In. split; [exact Hop|]. unfold recognized. rewrite Hrec. reflexivity.
Qed.


(** *** Operations the generator does not know *)

Lemma for_each_ext {A S : Type} (f g : S -> A -> result S) (items : list A) :
  (forall st x, f st x = g st x) ->
  forall st, FeatureEngineer.for_each f items st = FeatureEngineer.for_each g items st.
Proof.
  intros H. induction items as [|x items IH]; intros st; simpl; [reflexivity|].
  rewrite H. destruct (g st x); simpl; [apply IH|reflexivity].
Qed.

Lemma for_each_identity {A S : Type} (f : S -> A -> result S) (items : list A) :
  (forall st x, f st x = Ok st) ->
  forall st, FeatureEngineer.for_each f items st = Ok st.
Proof.
  intros H. induction items as [|x items IH]; intros st; simpl; [reflexivity|].
  rewrite H. simpl. apply IH.
Qed.

Lemma for_each_preserves {A S : Type} (f : S -> A -> result S) (P : S -> Prop)
  (items : list A) :
  (forall st x st', In x items -> P st -> f st x = Ok st' -> P st') ->
  forall st st', P st -> FeatureEngineer.for_each f items st = Ok st' -> P st'.
Proof.
  induction items as [|x items IH]; intros H st st' HP Hrun; simpl in Hrun.
  - injection Hrun as <-. exact HP.
  - destruct (f st x) as [st1|e] eqn:Hstep; simpl in Hrun; [|discriminate].
    apply (IH (fun st x st' Hin => H st x st' (or_intror Hin)) st1 st').
    + apply (H st x st1 (or_introl eq_refl) HP Hstep).
    + exact Hrun.
Qed.

Lemma operations_filtered (col : string) (w : Z) (operations : list string) :
  forall st,
    FeatureEngineer.for_each (FeatureEngineer.operation_step stat col w) operations st
    = FeatureEngineer.for_each (FeatureEngineer.operation_step stat col w)
        (filter recognized operations) st.
Proof.
  induction operations as [|operation rest IH]; intros st; simpl; [reflexivity|].
  unfold recognized at 1, FeatureEngineer.operation_step at 1.
  destruct (FeatureEngineer.recognize operation) as [s|] eqn:Hrec.
  - simpl. unfold FeatureEngineer.operation_step at 2. rewrite Hrec.
    match goal with |- bind ?r _ = bind ?r _ => destruct r as [st1|e] end;
      simpl; [apply IH|reflexivity].
  - simpl. apply IH.
Qed.

Lemma augment_filtered (data : DataFrame) (cols : list string) (windows : list Z)
  (operations : list string) :
  FeatureEngineer.augment stat data cols windows operations
  = FeatureEngineer.augment stat data cols windows (filter recognized operations).
Proof.
  unfold FeatureEngineer.augment. apply for_each_ext. intros st c.
  unfold FeatureEngineer.column_step.
  destruct (negb (Frame.has_column (FeatureEngineer.dataframe st) c)); [reflexivity|].
  apply for_each_ext. intros st1 w. apply operations_filtered.
Qed.

Lemma augment_without_operations (data : DataFrame) (cols : list string)
  (windows : list Z) :
  FeatureEngineer.augment stat data cols windows []
  = Ok (FeatureEngineer.mkLocals data []
          (map FeatureEngineer.ColumnNotFound
               (filter (fun c => negb (Frame.has_column data c)) cols))).
Proof.
  unfold FeatureEngineer.augment.
  assert (H : forall cs lg,
    FeatureEngineer.for_each (FeatureEngineer.column_step stat windows []) cs
      (FeatureEngineer.mkLocals data [] lg)
    = Ok (FeatureEngineer.mkLocals data []
            (lg ++ map FeatureEngineer.ColumnNotFound
                       (filter (fun c => negb (Frame.has_column data c)) cs)))).
  { induction cs as [|c cs IH]; intros lg; simpl.
    - rewrite app_nil_r. reflexivity.
    - unfold FeatureEngineer.column_step at 1. simpl.
      destruct (negb (Frame.has_column data c)); simpl.
      + rewrite IH, <- app_assoc. reflexivity.
      + rewrite for_each_identity by reflexivity. simpl. apply IH. }
  apply (H cols []).
Qed.

(** Where a generated name and a warning can come from. *)
Lemma augment_provenance (data : DataFrame) (cols : list string) (windows : list Z)
  (operations : list string) (aug : FeatureEngineer.Locals) :
  FeatureEngineer.augment stat data cols windows operations = Ok aug ->
  (forall name, In name (FeatureEngineer.feature_names aug) ->
     exists col operation s w,
       In col cols /\ In w windows /\ In operation operations
       /\ FeatureEngineer.recognize operation = Some s
       /\ name = FeatureEngineer.feature_name col s w)
  /\ (forall r, In r (FeatureEngineer.log aug) ->
        exists c, r = FeatureEngineer.ColumnNotFound c /\ In c cols).
Proof.
  set (P := fun st : FeatureEngineer.Locals =>
    (forall name, In name (FeatureEngineer.feature_names st) ->
       exists col operation s w,
         In col cols /\ In w windows /\ In operation operations
         /\ FeatureEngineer.recognize operation = Some s
         /\ name = FeatureEngineer.feature_name col s w)
    /\ (forall r, In r (FeatureEngineer.log st) ->
          exists c, r = FeatureEngineer.ColumnNotFound c /\ In c cols)).
  intros Hrun. change (P aug). unfold FeatureEngineer.augment in Hrun.
  refine (for_each_preserves _ P cols _ _ aug _ Hrun);
    [|unfold P; simpl; split; intros ? Hfalse; destruct Hfalse].
  intros st c st' Hc HP Hstep. unfold FeatureEngineer.column_step in Hstep.
  destruct (negb (Frame.has_column (FeatureEngineer.dataframe st) c)).
  { injection Hstep as <-. destruct HP as [Hn Hl]. split; [exact Hn|]. simpl.
    intros r Hr. apply in_app_or in Hr. destruct Hr as [Hr|[<-|[]]].
    - apply Hl, Hr.
    - exists c. split; [reflexivity|exact Hc]. }
  refine (for_each_preserves _ P windows _ _ st' HP Hstep).
  clear st st' HP Hstep. intros st w st' Hw HP Hstep.
  unfold FeatureEngineer.window_step in Hstep.
  refine (for_each_preserves _ P operations _ _ st' HP Hstep).
  clear st st' HP Hstep. intros st operation st' Hop HP Hstep.
  unfold FeatureEngineer.operation_step in Hstep.
  destruct (FeatureEngineer.recognize operation) as [s|] eqn:Hrec.
  2:{ injection Hstep as <-. exact HP. }
  destruct (Frame.get (FeatureEngineer.dataframe st) c) as [source|e];
    simpl in Hstep; [|discriminate].
  destruct (FeatureEngineer.rolling stat s w source) as [vals|e];
    simpl in Hstep; [|discriminate].
  injection Hstep as <-. destruct HP as [Hn Hl]. split; [|exact Hl]. simpl.
  intros name Hname. apply in_app_or in Hname. destruct Hname as [Hname|[<-|[]]].
  - apply Hn, Hname.
  - exists c, operation, s, w. repeat split; assumption.
Qed.


End Features.

(** ** The generator on sample tables *)



(** The default operations are mean and std. *)
Lemma generate_rolling_features_default :
  exists out,
    Reference.generate_rolling_features Sample.engineer Sample.prices ["High"; "Volume"]
      [3] None = Ok out
    /\ FeatureEngineer.get_feature_names (FeatureEngineer.self_after out)
       = FeatureEngineer.get_rolling_feature_names ["High"] [3] None
    /\ FeatureEngineer.records out
       = [FeatureEngineer.ColumnNotFound "Volume"; FeatureEngineer.DroppedRows 2]
    /\ index (FeatureEngineer.returned out) = [3; 4; 5].
Proof. eexists. split; [reflexivity|]. repeat split. Qed.



(** * Further properties of the services *)

From Stdlib Require Import Permutation.

(** ** split_data: rows and columns *)

Lemma filter_partition_permutation {A : Type} (f g : A -> bool) (l : list A) :
  (forall x, g x = negb (f x)) -> Permutation l (filter f l ++ filter g l).
Proof.
  intros Hfg. induction l as [|x l IH]; simpl; [constructor|].
  rewrite Hfg. destruct (f x); simpl.
  - constructor. exact IH.
  - apply Permutation_cons_app. exact IH.
Qed.

Lemma select_same_length {A B : Type} (mask : list bool) (l : list A) (r : list B) :
  List.length l = List.length r ->
  List.length (Py.select mask l) = List.length (Py.select mask r).
Proof.
  revert l r. induction mask as [|b mask IH]; intros [|x l] [|y r] H;
    try discriminate; try reflexivity.
  injection H as H. destruct b; simpl; rewrite (IH l r H); reflexivity.
Qed.

Lemma mask_rows_well_formed (mask : list bool) (df : DataFrame) :
  Frame.well_formed df -> Frame.well_formed (Frame.mask_rows mask df).
Proof.
  unfold Frame.well_formed, Frame.mask_rows, Frame.len. simpl.
  intros H. apply Forall_map. apply Forall_impl with (2 := H).
  intros c Hc. simpl. apply select_same_length, Hc.
Qed.

Lemma iloc_upto_well_formed (k : Z) (df : DataFrame) :
  Frame.well_formed df -> Frame.well_formed (Frame.iloc_upto k df).
Proof.
  unfold Frame.well_formed, Frame.iloc_upto, Frame.len. simpl.
  intros H. apply Forall_map. apply Forall_impl with (2 := H).
  intros c Hc. simpl. unfold Py.upto. rewrite !length_firstn, Hc. reflexivity.
Qed.

Lemma iloc_from_well_formed (k : Z) (df : DataFrame) :
  Frame.well_formed df -> Frame.well_formed (Frame.iloc_from k df).
Proof.
  unfold Frame.well_formed, Frame.iloc_from, Frame.len. simpl.
  intros H. apply Forall_map. apply Forall_impl with (2 := H).
  intros c Hc. simpl. unfold Py.from. rewrite !length_skipn, Hc. reflexivity.
Qed.

Lemma column_names_map (g : list float -> list float) (cols : list (string * list float)) :
  map fst (map (fun c => (fst c, g (snd c))) cols) = map fst cols.
Proof. rewrite map_map. reflexivity. Qed.



Lemma select_true_prefix {A : Type} (k : nat) (mask : list bool) (l : list A) :
  Py.select (repeat true k ++ mask) l = firstn k l ++ Py.select mask (skipn k l).
Proof.
  revert l. induction k as [|k IH]; intros l; [reflexivity|].
  destruct l as [|x l]; simpl.
  - destruct mask; reflexivity.
  - rewrite IH. reflexivity.
Qed.

Lemma select_false_prefix {A : Type} (k : nat) (mask : list bool) (l : list A) :
  Py.select (repeat false k ++ mask) l = Py.select mask (skipn k l).
Proof.
  revert l. induction k as [|k IH]; intros l; [reflexivity|].
  destruct l as [|x l]; simpl.
  - destruct mask; reflexivity.
  - apply IH.
Qed.

Lemma select_all_false {A : Type} (k : nat) (l : list A) :
  Py.select (repeat false k) l = [].
Proof.
  revert l. induction k as [|k IH]; intros [|x l]; simpl; try reflexivity. apply IH.
Qed.

Lemma select_all_true {A : Type} (k : nat) (l : list A) :
  Py.select (repeat true k) l = firstn k l.
Proof.
  revert l. induction k as [|k IH]; intros [|x l]; simpl; try reflexivity.
  rewrite IH. reflexivity.
Qed.

Lemma map_constant {A : Type} (f : A -> bool) (b : bool) (l : list A) :
  (forall y, In y l -> f y = b) -> map f l = repeat b (List.length l).
Proof.
  induction l as [|x l IH]; intros H; simpl; [reflexivity|].
  rewrite (H x (or_introl eq_refl)), IH; [reflexivity|].
  intros y Hy. apply H. right. exact Hy.
Qed.

(** On a strictly increasing index the rows before the cut are the first
    [k] rows. *)
Lemma sorted_masks (l : list Z) (k : nat) (cut : Z) :
  StronglySorted Z.lt l ->
  nth_error l k = Some cut ->
  map (fun ts => ts <? cut) l = repeat true k ++ repeat false (List.length l - k)
  /\ map (fun ts => cut <=? ts) l = repeat false k ++ repeat true (List.length l - k).
Proof.
  intros Hs. revert k. induction Hs as [|x l Hs IH Hx]; intros k Hk.
  - destruct k; discriminate.
  - rewrite Forall_forall in Hx. destruct k as [|k]; simpl in Hk.
    + injection Hk as <-. simpl. rewrite Z.ltb_irrefl, Z.leb_refl.
      split; f_equal; apply map_constant; intros y Hy;
        specialize (Hx y Hy); [apply Z.ltb_ge|apply Z.leb_le]; lia.
    + assert (x < cut) by (apply Hx; eapply nth_error_In; eassumption).
      destruct (IH k Hk) as [E1 E2]. simpl. rewrite E1, E2.
      destruct (Z.ltb_spec x cut); [|lia]. destruct (Z.leb_spec cut x); [lia|].
      split; reflexivity.
Qed.

Lemma select_head_rows {A : Type} (k m : nat) (l : list A) :
  Py.select (repeat true k ++ repeat false m) l = firstn k l.
Proof. rewrite select_true_prefix, select_all_false, app_nil_r. reflexivity. Qed.

Lemma select_tail_rows {A : Type} (k m : nat) (l : list A) :
  (List.length l <= k + m)%nat ->
  Py.select (repeat false k ++ repeat true m) l = skipn k l.
Proof.
  intros H. rewrite select_false_prefix, select_all_true.
  apply firstn_all2. rewrite length_skipn. lia.
Qed.

(** X2.  On a well-formed, non-empty table with a strictly increasing time
    index and a ratio [0 < r < 1], the method does not matter: splitting
    by the cut timestamp and slicing by position return the same pair. *)
Theorem split_data_methods_agree (self : DataService.t) (data : DataFrame) (r : Q)
  (method : string) :
  DataService.current_data self = Some data ->
  index_kind data = DatetimeIndex ->
  StronglySorted Z.lt (index data) ->
  Frame.well_formed data ->
  (0 < r)%Q -> (r < 1)%Q ->
  index data <> [] ->
  DataService.split_data self r method
  = DataService.split_data self r DataService.date_based.
Proof.
  intros Hd Hkind Hsorted Hwf H0 H1 Hne.
  destruct (String.eqb_spec method DataService.date_based) as [->|Hm]; [reflexivity|].
  pose proof (split_index_range data H0 H1 Hne) as Hr.
  destruct (item_in_range (index data) Hr) as (cut & Hitem & Hnth).
  rewrite (@split_data_by_date self data r cut Hd Hkind Hitem).
  unfold DataService.split_data. rewrite Hd.
  apply String.eqb_neq in Hm. rewrite Hm. simpl andb. cbv iota.
  set (k := DataService.split_index data r) in *.
  destruct (sorted_masks (index data) (Z.to_nat k) cut Hsorted Hnth) as [Ebefore Eafter].
  rewrite Ebefore, Eafter.
  unfold Frame.iloc_upto, Frame.iloc_from, Frame.mask_rows.
  unfold Frame.len in Hr.
  assert (Hlen : (Z.to_nat k < List.length (index data))%nat) by lia.
  f_equal. f_equal.
  - f_equal.
    + rewrite select_head_rows. apply upto_firstn. lia.
    + apply map_ext. intros c. rewrite select_head_rows, upto_firstn by lia. reflexivity.
  - f_equal.
    + rewrite select_tail_rows by lia. apply from_skipn. lia.
    + apply map_ext_in. intros c Hc.
      unfold Frame.well_formed, Frame.len in Hwf. rewrite Forall_forall in Hwf.
      rewrite select_tail_rows by (rewrite (Hwf c Hc); lia).
      rewrite from_skipn by lia. reflexivity.
Qed.

Lemma split_data_methods_agree_witness :
  DataService.split_data (DataService.mk (Some Sample.prices)) (4 # 5) "index_based"
  = DataService.split_data (DataService.mk (Some Sample.prices)) (4 # 5)
      DataService.date_based.
Proof.
  apply (split_data_methods_agree (DataService.mk (Some Sample.prices)) Sample.prices).
  - reflexivity.
  - reflexivity.
  - simpl. repeat (constructor; [|repeat constructor; lia]). constructor.
  - repeat constructor.
  - reflexivity.
  - reflexivity.
  - discriminate.
Defined.



(** ** generate_rolling_features: the table returned *)

Lemma select_In {A : Type} (mask : list bool) (l : list A) (x : A) :
  In x (Py.select mask l) ->
  exists i, nth i mask false = true /\ nth_error l i = Some x.
Proof.
  revert l. induction mask as [|b mask IH]; intros [|y l] H; simpl in H;
    try contradiction.
  destruct b.
  - destruct H as [<-|H].
    + exists 0%nat. split; reflexivity.
    + destruct (IH l H) as (i & Hi & Hx). exists (S i). split; assumption.
  - destruct (IH l H) as (i & Hi & Hx). exists (S i). split; assumption.
Qed.

Lemma keep_mask_true (df : DataFrame) (i : nat) :
  nth i (FeatureEngineer.keep_mask df) false = true ->
  FeatureEngineer.row_complete df i = true.
Proof.
  unfold FeatureEngineer.keep_mask. intros H.
  destruct (Nat.lt_ge_cases i (Frame.len df)) as [Hlt|Hge].
  - rewrite nth_map_seq in H by exact Hlt. exact H.
  - rewrite nth_overflow in H by (rewrite length_map, length_seq; exact Hge).
    discriminate.
Qed.

(** [dropna] leaves no missing cell. *)
Lemma dropna_complete (df : DataFrame) (c : string * list float) (x : float) :
  In c (columns (FeatureEngineer.dropna df)) -> In x (snd c) -> is_nan x = false.
Proof.
  unfold FeatureEngineer.dropna, Frame.mask_rows. simpl. intros Hc Hx.
  apply in_map_iff in Hc. destruct Hc as (c0 & <- & Hc0). simpl in Hx.
  apply select_In in Hx. destruct Hx as (i & Hi & Hnth).
  apply keep_mask_true in Hi. unfold FeatureEngineer.row_complete in Hi.
  rewrite forallb_forall in Hi. specialize (Hi c0 Hc0).
  rewrite (nth_error_nth _ _ nan Hnth) in Hi.
  destruct (is_nan x); [discriminate|reflexivity].
Qed.

Lemma dropna_well_formed (df : DataFrame) :
  Frame.well_formed df -> Frame.well_formed (FeatureEngineer.dropna df).
Proof. apply mask_rows_well_formed. Qed.

Lemma select_length_le {A : Type} (mask : list bool) (l : list A) :
  (List.length (Py.select mask l) <= List.length l)%nat.
Proof.
  revert l. induction mask as [|b mask IH]; intros [|x l]; simpl; try lia.
  specialize (IH l). destruct b; simpl; lia.
Qed.

Lemma assign_well_formed (n : nat) (name : string) (v : list float)
  (cols : list (string * list float)) :
  List.length v = n ->
  Forall (fun c => List.length (snd c) = n) cols ->
  Forall (fun c => List.length (snd c) = n) (Frame.assign name v cols).
Proof.
  intros Hv H. induction H as [|[c u] cols Hc H IH]; simpl.
  - constructor; [exact Hv|constructor].
  - destruct (String.eqb name c); constructor; assumption.
Qed.

Lemma assign_names (name : string) (v : list float) (cols : list (string * list float)) :
  map fst (Frame.assign name v cols)
  = if existsb (String.eqb name) (map fst cols) then map fst cols
    else map fst cols ++ [name].
Proof.
  induction cols as [|[c u] cols IH]; simpl; [reflexivity|].
  destruct (String.eqb name c); simpl; [reflexivity|].
  rewrite IH. destruct (existsb (String.eqb name) (map fst cols)); reflexivity.
Qed.

Section Returned.

Variable stat : FeatureEngineer.Statistic -> list float -> float.

(** What every iteration of the three loops keeps: the index, the row
    count of every column, the columns of the table given as a prefix of
    the columns, and the generated names among the columns. *)
Lemma augment_shape (data : DataFrame) (cols : list string) (windows : list Z)
  (operations : list string) (aug : FeatureEngineer.Locals) :
  FeatureEngineer.augment stat data cols windows operations = Ok aug ->
  index (FeatureEngineer.dataframe aug) = index data
  /\ index_kind (FeatureEngineer.dataframe aug) = index_kind data
  /\ (Frame.well_formed data -> Frame.well_formed (FeatureEngineer.dataframe aug))
  /\ (exists added,
        Frame.column_names (FeatureEngineer.dataframe aug)
        = Frame.column_names data ++ added
        /\ incl added (FeatureEngineer.feature_names aug))
  /\ incl (FeatureEngineer.feature_names aug)
          (Frame.column_names (FeatureEngineer.dataframe aug)).
Proof.
  set (P := fun st : FeatureEngineer.Locals =>
    index (FeatureEngineer.dataframe st) = index data
    /\ index_kind (FeatureEngineer.dataframe st) = index_kind data
    /\ (Frame.well_formed data -> Frame.well_formed (FeatureEngineer.dataframe st))
    /\ (exists added,
          Frame.column_names (FeatureEngineer.dataframe st)
          = Frame.column_names data ++ added
          /\ incl added (FeatureEngineer.feature_names st))
    /\ incl (FeatureEngineer.feature_names st)
            (Frame.column_names (FeatureEngineer.dataframe st))).
  intros Hrun. change (P aug). unfold FeatureEngineer.augment in Hrun.
  refine (for_each_preserves _ P cols _ _ aug _ Hrun).
  2:{ unfold P. simpl. repeat split; try (intros H; exact H).
      - exists []. rewrite app_nil_r. split; [reflexivity|apply incl_refl].
      - intros x []. }
  intros st c st' _ HP Hstep. unfold FeatureEngineer.column_step in Hstep.
  destruct (negb (Frame.has_column (FeatureEngineer.dataframe st) c)).
  { injection Hstep as <-. exact HP. }
  refine (for_each_preserves _ P windows _ _ st' HP Hstep).
  clear st st' HP Hstep. intros st w st' _ HP Hstep.
  unfold FeatureEngineer.window_step in Hstep.
  refine (for_each_preserves _ P operations _ _ st' HP Hstep).
  clear st st' HP Hstep. intros st operation st' _ HP Hstep.
  unfold FeatureEngineer.operation_step in Hstep.
  destruct (FeatureEngineer.recognize operation) as [s|].
  2:{ injection Hstep as <-. exact HP. }
  unfold Frame.get in Hstep.
  destruct (Frame.lookup c (columns (FeatureEngineer.dataframe st))) as [source|] eqn:Hsrc;
    simpl in Hstep; [|discriminate].
  unfold FeatureEngineer.rolling in Hstep.
  destruct (w <? 0); simpl in Hstep; [discriminate|].
  injection Hstep as <-.
  destruct HP as (Hidx & Hkind & Hwf & (added & Hnames & Hadded) & Hincl).
  unfold P. cbn [FeatureEngineer.dataframe FeatureEngineer.feature_names].
  unfold Frame.set, Frame.well_formed, Frame.column_names, Frame.len in *.
  cbn [index index_kind columns].
  set (name := FeatureEngineer.feature_name c s w) in *.
  split; [exact Hidx|]. split; [exact Hkind|]. split; [|split].
  - intros Hdata. specialize (Hwf Hdata). apply assign_well_formed; [|exact Hwf].
    rewrite length_map, length_seq.
    apply lookup_In in Hsrc. rewrite Forall_forall in Hwf. apply (Hwf _ Hsrc).
  - rewrite assign_names.
    destruct (existsb (String.eqb name) (map fst (columns (FeatureEngineer.dataframe st)))).
    + exists added. split; [exact Hnames|]. apply incl_appl, Hadded.
    + exists (added ++ [name]). rewrite Hnames, app_assoc. split; [reflexivity|].
      apply incl_app; [apply incl_appl, Hadded|apply incl_appr, incl_refl].
  - rewrite assign_names. intros x Hx. apply in_app_or in Hx.
    destruct (existsb (String.eqb name) (map fst (columns (FeatureEngineer.dataframe st))))
      eqn:Hex.
    + destruct Hx as [Hx|[<-|[]]]; [apply Hincl, Hx|].
      apply existsb_exists in Hex. destruct Hex as (y & Hy & Heq).
      apply String.eqb_eq in Heq. subst y. exact Hy.
    + apply in_or_app. destruct Hx as [Hx|[<-|[]]]; [left; apply Hincl, Hx|].
      right. left. reflexivity.
Qed.

(** X4.  Whenever [generate_rolling_features] returns, the table it
    returns holds no missing cell, in any column; it has the index kind of
    the table given and at most as many rows; and it is well formed when
    the table given is. *)
Theorem generate_rolling_features_complete_table (self : FeatureEngineer.t)
  (data : DataFrame) (cols : list string) (windows : list Z)
  (operations : option (list string)) (out : FeatureEngineer.Outcome) :
  FeatureEngineer.generate_rolling_features stat self data cols windows operations = Ok out ->
  (forall c x, In c (columns (FeatureEngineer.returned out)) -> In x (snd c) ->
               is_nan x = false)
  /\ index_kind (FeatureEngineer.returned out) = index_kind data
  /\ (Frame.len (FeatureEngineer.returned out) <= Frame.len data)%nat
  /\ (Frame.well_formed data -> Frame.well_formed (FeatureEngineer.returned out)).
Proof.
  unfold FeatureEngineer.generate_rolling_features.
  destruct (FeatureEngineer.augment stat data cols windows _) as [aug|e] eqn:Haug;
    simpl; [|discriminate].
  intros E. injection E as <-. cbn [FeatureEngineer.returned].
  destruct (augment_shape data cols windows _ aug Haug) as (Hidx & Hkind & Hwf & _).
  split; [apply dropna_complete|]. split; [exact Hkind|]. split.
  - unfold FeatureEngineer.dropna, Frame.mask_rows, Frame.len. cbn [index].
    rewrite Hidx. apply select_length_le.
  - intros Hdata. apply dropna_well_formed, Hwf, Hdata.
Qed.

(** X5.  Whenever [generate_rolling_features] returns, the columns of the
    table given are still there, in their order and before any new
    column; every new column bears a generated name; and every generated
    name is a column of the table returned. *)
Theorem generate_rolling_features_adds_columns (self : FeatureEngineer.t)
  (data : DataFrame) (cols : list string) (windows : list Z)
  (operations : option (list string)) (out : FeatureEngineer.Outcome) :
  FeatureEngineer.generate_rolling_features stat self data cols windows operations = Ok out ->
  (exists added,
     Frame.column_names (FeatureEngineer.returned out) = Frame.column_names data ++ added
     /\ incl added (FeatureEngineer.get_feature_names (FeatureEngineer.self_after out)))
  /\ (forall name,
        In name (FeatureEngineer.get_feature_names (FeatureEngineer.self_after out)) ->
        Frame.has_column (FeatureEngineer.returned out) name = true).
Proof.
  unfold FeatureEngineer.generate_rolling_features.
  destruct (FeatureEngineer.augment stat data cols windows _) as [aug|e] eqn:Haug;
    simpl; [|discriminate].
  intros E. injection E as <-.
  cbn [FeatureEngineer.returned FeatureEngineer.self_after FeatureEngineer.get_feature_names
       FeatureEngineer.data FeatureEngineer.generated_features].
  destruct (augment_shape data cols windows _ aug Haug) as (_ & _ & _ & Hadded & Hincl).
  assert (Hnames : Frame.column_names (FeatureEngineer.dropna (FeatureEngineer.dataframe aug))
                   = Frame.column_names (FeatureEngineer.dataframe aug)).
  { unfold FeatureEngineer.dropna, Frame.mask_rows, Frame.column_names. cbn [columns].
    apply column_names_map. }
  split.
  - rewrite Hnames. exact Hadded.
  - intros name Hname. apply has_column_In. rewrite Hnames. apply Hincl, Hname.
Qed.

End Returned.

Lemma generate_rolling_features_complete_table_witness :
  exists out,
    Reference.generate_rolling_features Sample.engineer Sample.prices ["High"] [2]
      (Some ["mean"]) = Ok out
    /\ (forall c x, In c (columns (FeatureEngineer.returned out)) -> In x (snd c) ->
                    is_nan x = false)
    /\ (Frame.len (FeatureEngineer.returned out) <= 5)%nat
    /\ Frame.well_formed (FeatureEngineer.returned out).
Proof.
  eexists. split; [reflexivity|].
  destruct (generate_rolling_features_complete_table Reference.window_statistic
              Sample.engineer Sample.prices ["High"] [2] (Some ["mean"]) _ eq_refl)
    as (Hnan & _ & Hlen & Hwf).
  split; [exact Hnan|]. split; [exact Hlen|]. apply Hwf. repeat constructor.
Defined.

Lemma generate_rolling_features_adds_columns_witness :
  exists out,
    Reference.generate_rolling_features Sample.engineer Sample.prices ["High"] [2]
      (Some ["mean"]) = Ok out
    /\ (exists added,
          Frame.column_names (FeatureEngineer.returned out) = ["High"; "VWAP"] ++ added)
    /\ Frame.has_column (FeatureEngineer.returned out) "High_rolling_mean_2" = true.
Proof.
  eexists. split; [reflexivity|].
  destruct (generate_rolling_features_adds_columns Reference.window_statistic
              Sample.engineer Sample.prices ["High"] [2] (Some ["mean"]) _ eq_refl)
    as ((added & Hnames & _) & Hcols).
  split; [exists added; exact Hnames|]. apply Hcols. left. reflexivity.
Defined.

(** ** generate_rolling_features: windows and names *)

Lemma select_nothing {A : Type} (mask : list bool) (l : list A) :
  (forall i, (i < List.length l)%nat -> nth i mask false = false) ->
  Py.select mask l = [].
Proof.
  intros H. rewrite (@select_skip _ (List.length l) mask l H).
  rewrite skipn_all. destruct (skipn _ mask); reflexivity.
Qed.

Section Windows.

Variable stat : FeatureEngineer.Statistic -> list float -> float.

(** A window larger than the table: every row has a missing cell. *)
Lemma window_too_large_empties (data : DataFrame) (cols : list string)
  (windows : list Z) (operations : list string)
  (col operation : string) (s : FeatureEngineer.Statistic) (w : Z) :
  raw_columns cols windows ->
  Forall (fun w => 0 <= w) windows ->
  In col cols -> Frame.has_column data col = true ->
  In w windows -> Z.of_nat (Frame.len data) < w ->
  In operation operations -> FeatureEngineer.recognize operation = Some s ->
  exists aug,
    FeatureEngineer.augment stat data cols windows operations = Ok aug
    /\ index (FeatureEngineer.dropna (FeatureEngineer.dataframe aug)) = [].
Proof.
  intros Hraw Hw0 Hcol Hpresent Hw Hbig Hop Hrec.
  destruct (augment_spec stat data cols windows operations Hraw Hw0)
    as (aug & Haug & [Hidx Hinv] & Hnames & _).
  pose proof (name_generated data cols windows operations col operation s w
                Hcol Hpresent Hw Hop Hrec) as Hin.
  rewrite <- Hnames in Hin.
  destruct (proj1 (Hinv _) Hin) as (c' & s' & w' & source & _ & _ & Hname & _ & Hder).
  apply feature_name_injective in Hname. destruct Hname as (<- & <- & <-).
  exists aug. split; [exact Haug|].
  unfold FeatureEngineer.dropna, Frame.mask_rows. cbn [index]. rewrite Hidx.
  apply select_nothing.
  apply (rows_with_missing_dropped _ _ _ _ Hder).
  intros i Hi. apply rolled_before_window. unfold Frame.len in Hbig. lia.
Qed.


End Windows.


(** X7.  Two descriptors get the same column name only when they are the
    same descriptor: the name fixes the source column, the operation and
    the window. *)
Theorem feature_names_do_not_collide (c1 c2 : string) (s1 s2 : FeatureEngineer.Statistic)
  (w1 w2 : Z) :
  FeatureEngineer.feature_name c1 s1 w1 = FeatureEngineer.feature_name c2 s2 w2
  <-> c1 = c2 /\ s1 = s2 /\ w1 = w2.
Proof.
  split.
  - apply feature_name_injective.
  - intros (-> & -> & ->). reflexivity.
Qed.

Lemma flat_map_constant_length {A B : Type} (f : A -> list B) (n : nat) (l : list A) :
  (forall x, List.length (f x) = n) ->
  List.length (flat_map f l) = (List.length l * n)%nat.
Proof.
  intros H. induction l as [|x l IH]; simpl; [reflexivity|].
  rewrite length_app, H, IH. reflexivity.
Qed.

Lemma get_rolling_feature_names_count_aux (cols : list string) (windows : list Z)
  (operations : list string) :
  List.length (FeatureEngineer.get_rolling_feature_names cols windows (Some operations))
  = (List.length cols * (List.length windows * List.length operations))%nat.
Proof.
  unfold FeatureEngineer.get_rolling_feature_names.
  apply flat_map_constant_length. intros c.
  apply flat_map_constant_length. intros w. apply length_map.
Qed.

(** X8.  [get_rolling_feature_names] lists one name per combination of
    column, window and operation, and the names of distinct combinations
    differ when the operations are known ones: the list has no repetition
    when the three argument lists have none. *)
Theorem get_rolling_feature_names_count (cols : list string) (windows : list Z)
  (operations : list string) :
  List.length (FeatureEngineer.get_rolling_feature_names cols windows (Some operations))
  = (List.length cols * (List.length windows * List.length operations))%nat
  /\ (NoDup cols -> NoDup windows -> NoDup operations ->
      Forall (fun operation => recognized operation = true) operations ->
      NoDup (FeatureEngineer.get_rolling_feature_names cols windows (Some operations))).
Proof.
  split; [apply get_rolling_feature_names_count_aux|].
  unfold FeatureEngineer.get_rolling_feature_names.
  intros Hc Hw Ho Hknown.
  assert (Hname : forall c w operation, In operation operations ->
    exists s, FeatureEngineer.recognize operation = Some s
              /\ (c ++ "_rolling_" ++ operation ++ "_" ++ Py.str w)%string
                 = FeatureEngineer.feature_name c s w).
  { intros c w operation Hin. rewrite Forall_forall in Hknown.
    specialize (Hknown operation Hin). unfold recognized in Hknown.
    destruct (FeatureEngineer.recognize operation) as [s|] eqn:Hrec; [|discriminate].
    exists s. split; [reflexivity|]. unfold FeatureEngineer.feature_name.
    rewrite (@recognize_name _ _ Hrec). reflexivity. }
  assert (Hops : forall c w,
    NoDup (map (fun operation =>
                  (c ++ "_rolling_" ++ operation ++ "_" ++ Py.str w)%string) operations)).
  { intros c w. clear Hknown. induction Ho as [|o os Hnotin Ho IH]; cbn [map];
      constructor.
    - intros Hin. apply in_map_iff in Hin. destruct Hin as (o' & Heq & Hin').
      cbv beta in Heq.
      destruct (Hname c w o (or_introl eq_refl)) as (s & Hrec & E).
      destruct (Hname c w o' (or_intror Hin')) as (s' & Hrec' & E').
      rewrite E, E' in Heq. apply feature_name_injective in Heq.
      destruct Heq as (_ & Hs & _).
      apply recognize_name in Hrec. apply recognize_name in Hrec'.
      assert (Ho' : o = o') by congruence. apply Hnotin. rewrite Ho'. exact Hin'.
    - apply IH. intros c0 w0 operation Hin. apply Hname. right. exact Hin. }
  assert (Hwins : forall c,
    NoDup (flat_map (fun w => map (fun operation =>
                  (c ++ "_rolling_" ++ operation ++ "_" ++ Py.str w)%string) operations)
                    windows)).
  { intros c. clear Hc. induction Hw as [|w ws Hnotin Hw IH]; cbn [flat_map];
      [constructor|].
    apply NoDup_app; [apply Hops|exact IH|].
    intros x Hx Hx'. apply in_map_iff in Hx. destruct Hx as (o & <- & Ho1).
    apply in_flat_map in Hx'. destruct Hx' as (w' & Hw' & Hx').
    apply in_map_iff in Hx'. destruct Hx' as (o' & Heq & Ho2).
    cbv beta in Heq.
    destruct (Hname c w o Ho1) as (s & _ & E).
    destruct (Hname c w' o' Ho2) as (s' & _ & E').
    rewrite E, E' in Heq. apply feature_name_injective in Heq.
    destruct Heq as (_ & _ & <-). contradiction. }
  clear Hw. induction Hc as [|c cs Hnotin Hc IH]; cbn [flat_map]; [constructor|].
  apply NoDup_app; [apply Hwins|exact IH|].
  intros x Hx Hx'. apply in_flat_map in Hx. destruct Hx as (w & _ & Hx).
  apply in_map_iff in Hx. destruct Hx as (o & <- & Ho1).
  apply in_flat_map in Hx'. destruct Hx' as (c' & Hc' & Hx').
  apply in_flat_map in Hx'. destruct Hx' as (w' & _ & Hx').
  apply in_map_iff in Hx'. destruct Hx' as (o' & Heq & Ho2).
  cbv beta in Heq.
  destruct (Hname c w o Ho1) as (s & _ & E).
  destruct (Hname c' w' o' Ho2) as (s' & _ & E').
  rewrite E, E' in Heq. apply feature_name_injective in Heq.
  destruct Heq as (<- & _ & _). contradiction.
Qed.

Section Names.

Variable stat : FeatureEngineer.Statistic -> list float -> float.


End Names.


(** ** train_arima: what a call installs *)

Section Installing.

Variable Model : Type.
Variable auto_arima :
  ModelService.ArimaParams -> list float -> option (list (list float)) -> result Model.
Variable model_order : Model -> option (Z * Z * Z).
Variable model_aic : Model -> option float.
Variable model_summary_text : Model -> option string.


Lemma select_columns_present (df : DataFrame) (names : list string) :
  Forall (fun name => Frame.has_column df name = true) names ->
  exists cols,
    ModelService.select_columns df names = Ok cols
    /\ Forall2 (fun name col => Frame.lookup name (columns df) = Some col) names cols.
Proof.
  induction 1 as [|name names Hname _ IH]; simpl.
  - exists []. split; [reflexivity|constructor].
  - destruct IH as (cols & Hcols & Hall).
    rewrite has_column_lookup in Hname. unfold Frame.get.
    destruct (Frame.lookup name (columns df)) as [col|] eqn:Hcol; [|discriminate].
    simpl. rewrite Hcols. simpl. exists (col :: cols).
    split; [reflexivity|constructor; assumption].
Qed.

(** X11.  With the target and every feature column in the training table,
    the only failure of [train_arima] is the library's: the search is
    called with the target column, and with the feature columns in the
    order of the feature list, or with no exogenous data when the list is
    empty; the call raises what the search raises and installs the model
    the search returns. *)
Theorem train_arima_calls_search (self : ModelService.t Model) (training : DataFrame)
  (target : string) (features : list string) (test : option DataFrame) :
  Frame.has_column training target = true ->
  Forall (fun f => Frame.has_column training f = true) features ->
  exists y cols,
    Frame.lookup target (columns training) = Some y
    /\ Forall2 (fun f col => Frame.lookup f (columns training) = Some col) features cols
    /\ match auto_arima (ModelService.config self) y
               (match features with
                | [] => None
                | _ :: _ => Some cols
                end) with
       | Raise e =>
           ModelService.train_arima auto_arima model_order model_aic model_summary_text
             self training target features test = (Raise e, self)
       | Ok fitted =>
           exists info,
             fst (ModelService.train_arima auto_arima model_order model_aic
                    model_summary_text self training target features test) = Ok info
             /\ ModelService.model
                  (snd (ModelService.train_arima auto_arima model_order model_aic
                          model_summary_text self training target features test))
                = Some fitted
             /\ ModelService.aic info = model_aic fitted
       end.
Proof.
  intros Htarget Hfeatures.
  destruct (select_columns_present training features Hfeatures) as (cols & Hcols & Hall).
  pose proof Htarget as Hy. rewrite has_column_lookup in Hy.
  destruct (Frame.lookup target (columns training)) as [y|] eqn:Hlookup; [|discriminate].
  exists y, cols. split; [reflexivity|]. split; [exact Hall|].
  assert (Hfit : ModelService.fit auto_arima self training target features
                 = auto_arima (ModelService.config self) y
                     (match features with
                      | [] => None
                      | _ :: _ => Some cols
                      end)).
  { unfold ModelService.fit. rewrite Htarget. simpl negb. cbv iota.
    rewrite (@filter_none _ (fun f => negb (Frame.has_column training f)) features).
    2:{ intros f Hf. rewrite Forall_forall in Hfeatures. rewrite (Hfeatures f Hf).
        reflexivity. }
    simpl ModelService.truthy. cbv iota.
    unfold Frame.get. rewrite Hlookup. simpl bind.
    destruct features as [|f rest]; cbn [ModelService.truthy]; cbv iota.
    - reflexivity.
    - rewrite Hcols. reflexivity. }
  unfold ModelService.train_arima. rewrite Hfit.
  destruct (auto_arima _ y _) as [fitted|e]; [|reflexivity].
  eexists. repeat split.
Qed.

End Installing.

Lemma train_arima_calls_search_witness :
  exists info after,
    Reference.train_arima Sample.fresh Sample.prices "VWAP" ["High"] None = (Ok info, after)
    /\ ModelService.model after = Some [9; 11; 10; 12; 13]%float.
Proof.
  eexists _, _. split; [reflexivity|].
  destruct (train_arima_calls_search Reference.Model Reference.auto_arima
              Reference.model_order Reference.model_aic Reference.model_summary_text
              Sample.fresh Sample.prices "VWAP" ["High"] None eq_refl)
    as (y & cols & Hy & _ & Hrun).
  - repeat constructor.
  - vm_compute in Hy. apply (f_equal (fun o => match o with
                                               | Some v => v
                                               | None => []
                                               end)) in Hy.
    simpl in Hy. subst y. simpl in Hrun.
    destruct Hrun as (info & _ & Hmodel & _). exact Hmodel.
Defined.

(** ** predict: errors and the stored pair *)

Lemma upto_length {A : Type} (k : Z) (l : list A) :
  List.length (Py.upto k l) = Py.bound k (List.length l).
Proof.
  unfold Py.upto. rewrite length_firstn. unfold Py.bound.
  destruct (Z.leb_spec 0 k); lia.
Qed.

Lemma upto_everything {A : Type} (k : Z) (l : list A) :
  Z.of_nat (List.length l) <= k -> Py.upto k l = l.
Proof.
  intros H. rewrite upto_firstn by lia. apply firstn_all2. lia.
Qed.

Section Forecasting.

Variable Model : Type.
Variable model_predict : Model -> Z -> option (list (list float)) -> result (list float).

(** Where the dates and the actual values of a forecast come from. *)
Lemma forecast_sources (self : ModelService.t Model) (n : option Z)
  (X : option (list (list float))) (k : Z) (fc : list float) (ds : list Z)
  (act : option (list float)) :
  ModelService.forecast model_predict self n X = Ok (k, fc, ds, act) ->
  match ModelService.testing_data self with
  | Some held_out =>
      ds = Py.upto k (index held_out)
      /\ exists info col,
           ModelService.model_info self = Some info
           /\ Frame.lookup (ModelService.target_column info) (columns held_out) = Some col
           /\ act = Some (Py.upto k col)
  | None => act = None /\ n = Some k
  end.
Proof.
  unfold ModelService.forecast.
  destruct (ModelService.model self) as [fitted|]; [|discriminate].
  destruct (ModelService.testing_data self) as [held_out|].
  - destruct n as [k0|]; simpl.
    + destruct X as [x|]; simpl.
      * destruct (model_predict _ _ _) as [fc0|]; simpl; [|discriminate].
        destruct (ModelService.model_info self) as [info|]; simpl; [|discriminate].
        unfold Frame.get.
        destruct (Frame.lookup (ModelService.target_column info) (columns held_out))
          as [col|] eqn:Hcol; simpl; [|discriminate].
        intros E. injection E as <- <- <- <-.
        split; [reflexivity|]. exists info, col. repeat split. exact Hcol.
      * destruct (ModelService.model_info self) as [info|]; simpl.
        2:{ destruct (model_predict _ _ _); simpl; discriminate. }
        destruct (ModelService.truthy (ModelService.features_used info)).
        -- destruct (ModelService.select_columns held_out (ModelService.features_used info))
             as [cols|]; simpl; [|discriminate].
           destruct (model_predict _ _ _) as [fc0|]; simpl; [|discriminate].
           unfold Frame.get.
           destruct (Frame.lookup (ModelService.target_column info) (columns held_out))
             as [col|] eqn:Hcol; simpl; [|discriminate].
           intros E. injection E as <- <- <- <-.
           split; [reflexivity|]. exists info, col. repeat split. exact Hcol.
        -- simpl. destruct (model_predict _ _ _) as [fc0|]; simpl; [|discriminate].
           unfold Frame.get.
           destruct (Frame.lookup (ModelService.target_column info) (columns held_out))
             as [col|] eqn:Hcol; simpl; [|discriminate].
           intros E. injection E as <- <- <- <-.
           split; [reflexivity|]. exists info, col. repeat split. exact Hcol.
    + set (k0 := Z.of_nat (Frame.len held_out)).
      destruct X as [x|]; simpl.
      * destruct (model_predict _ _ _) as [fc0|]; simpl; [|discriminate].
        destruct (ModelService.model_info self) as [info|]; simpl; [|discriminate].
        unfold Frame.get.
        destruct (Frame.lookup (ModelService.target_column info) (columns held_out))
          as [col|] eqn:Hcol; simpl; [|discriminate].
        intros E. injection E as <- <- <- <-.
        split; [reflexivity|]. exists info, col. repeat split. exact Hcol.
      * destruct (ModelService.model_info self) as [info|]; simpl.
        2:{ destruct (model_predict _ _ _); simpl; discriminate. }
        destruct (ModelService.truthy (ModelService.features_used info)).
        -- destruct (ModelService.select_columns held_out (ModelService.features_used info))
             as [cols|]; simpl; [|discriminate].
           destruct (model_predict _ _ _) as [fc0|]; simpl; [|discriminate].
           unfold Frame.get.
           destruct (Frame.lookup (ModelService.target_column info) (columns held_out))
             as [col|] eqn:Hcol; simpl; [|discriminate].
           intros E. injection E as <- <- <- <-.
           split; [reflexivity|]. exists info, col. repeat split. exact Hcol.
        -- simpl. destruct (model_predict _ _ _) as [fc0|]; simpl; [|discriminate].
           unfold Frame.get.
           destruct (Frame.lookup (ModelService.target_column info) (columns held_out))
             as [col|] eqn:Hcol; simpl; [|discriminate].
           intros E. injection E as <- <- <- <-.
           split; [reflexivity|]. exists info, col. repeat split. exact Hcol.
  - destruct n as [k0|]; simpl; [|discriminate].
    destruct X as [x|]; simpl;
      (destruct (model_predict _ _ _) as [fc0|]; simpl; [|discriminate]);
      (destruct (ModelService.training_data self) as [tr|]; simpl; [|discriminate]);
      (destruct (Py.item (index tr) (-1)); simpl; [|discriminate]);
      intros E; injection E as <- <- <- <-; split; reflexivity.
Qed.

(** X12.  A call of [predict] that raises leaves the service as it was:
    neither [self.predictions] nor [self.actual_values] is assigned.  The
    held-out table is a table, each of its columns as long as its index,
    so that the second series cannot fail after the first was stored. *)
Theorem predict_failure_keeps_state (self after : ModelService.t Model)
  (n : option Z) (X : option (list (list float))) (e : exception) :
  (forall held_out, ModelService.testing_data self = Some held_out ->
                    Frame.well_formed held_out) ->
  ModelService.predict model_predict self n X = (Raise e, after) ->
  after = self.
Proof.
  intros Hwf. unfold ModelService.predict.
  destruct (ModelService.forecast model_predict self n X)
    as [[[[k fc] ds] act]|e0] eqn:Hf.
  2:{ intros E. injection E as _ <-. reflexivity. }
  destruct (ModelService.make_series fc _) as [P|e1].
  2:{ intros E. injection E as _ <-. reflexivity. }
  destruct act as [[|x rest]|]; try discriminate.
  apply forecast_sources in Hf.
  destruct (ModelService.testing_data self) as [held_out|].
  2:{ destruct Hf as [Hf _]. discriminate Hf. }
  destruct Hf as (-> & info & col & _ & Hcol & Hact).
  injection Hact as Hact. rewrite Hact.
  unfold ModelService.make_series. rewrite !upto_length.
  assert (Hlen : List.length col = List.length (index held_out)).
  { specialize (Hwf held_out eq_refl). unfold Frame.well_formed in Hwf.
    rewrite Forall_forall in Hwf. apply (Hwf _ (@lookup_In _ _ _ Hcol)). }
  rewrite Hlen, Nat.eqb_refl. discriminate.
Qed.

(** X13.  Asking for more periods than the held-out table has rows fails:
    the forecast has [n] values, the dates are the fewer labels of the
    held-out rows, and the forecast series cannot be built.  The service
    is left as it was. *)
Theorem predict_beyond_held_out_rows (self : ModelService.t Model) (fitted : Model)
  (info : ModelService.ModelInfo) (held_out : DataFrame)
  (n : Z) (X : option (list (list float))) :
  ModelService.model self = Some fitted ->
  ModelService.model_info self = Some info ->
  ModelService.testing_data self = Some held_out ->
  Frame.has_column held_out (ModelService.target_column info) = true ->
  Forall (fun f => Frame.has_column held_out f = true) (ModelService.features_used info) ->
  (forall X', exists fc,
      model_predict fitted n X' = Ok fc /\ List.length fc = Z.to_nat n) ->
  (0 < Frame.len held_out)%nat ->
  Z.of_nat (Frame.len held_out) < n ->
  ModelService.predict model_predict self (Some n) X = (Raise LengthMismatch, self).
Proof.
  intros Hmodel Hinfo Htest Htarget Hfeatures Hanswer Hrows Hn.
  unfold ModelService.predict, ModelService.forecast.
  rewrite Hmodel, Htest, Hinfo. simpl.
  rewrite has_column_lookup in Htarget.
  destruct (Frame.lookup (ModelService.target_column info) (columns held_out))
    as [col|] eqn:Hcol; [|discriminate].
  destruct (select_columns_present held_out _ Hfeatures) as (cols & Hcols & _).
  assert (Hdates : Py.upto n (index held_out) = index held_out).
  { apply upto_everything. unfold Frame.len in Hn. lia. }
  assert (Hlabels : ModelService.truthy (index held_out) = true).
  { unfold Frame.len in Hrows. destruct (index held_out); [simpl in Hrows; lia|reflexivity]. }
  assert (Hfail : forall fc : list float,
             List.length fc = Z.to_nat n ->
             ModelService.make_series fc (index held_out) = Raise LengthMismatch).
  { intros fc Hfc. unfold ModelService.make_series.
    destruct (Nat.eqb_spec (List.length fc) (List.length (index held_out))) as [E|_];
      [|reflexivity].
    unfold Frame.len in Hn. lia. }
  destruct X as [x|]; simpl.
  - destruct (Hanswer (Some x)) as (fc & -> & Hfc). simpl.
    unfold Frame.get. rewrite Hcol. simpl.
    rewrite Hdates, Hlabels, (Hfail fc Hfc). reflexivity.
  - destruct (ModelService.truthy (ModelService.features_used info)); simpl.
    + rewrite Hcols. simpl.
      destruct (Hanswer (Some cols)) as (fc & -> & Hfc). simpl.
      unfold Frame.get. rewrite Hcol. simpl.
      rewrite Hdates, Hlabels, (Hfail fc Hfc). reflexivity.
    + destruct (Hanswer None) as (fc & -> & Hfc). simpl.
      unfold Frame.get. rewrite Hcol. simpl.
      rewrite Hdates, Hlabels, (Hfail fc Hfc). reflexivity.
Qed.

(** X14.  After a successful [predict] that returns held-out actual
    values, the stored forecast and the stored actual values are two
    series over the same labels, the returned dates, and so of the same
    length: they are the returned values, position by position. *)
Theorem predict_stores_aligned_series (self after : ModelService.t Model)
  (n : option Z) (X : option (list (list float))) (answer : ModelService.Prediction)
  (x : float) (rest : list float) :
  ModelService.predict model_predict self n X = (Ok answer, after) ->
  ModelService.actual answer = Some (x :: rest) ->
  ModelService.predictions after
  = Some (mkSeries (ModelService.forecast_values answer) (ModelService.dates answer))
  /\ ModelService.actual_values after
     = Some (mkSeries (x :: rest) (ModelService.dates answer))
  /\ List.length (ModelService.forecast_values answer) = S (List.length rest)
  /\ List.length (ModelService.dates answer) = S (List.length rest).
Proof.
  unfold ModelService.predict.
  destruct (ModelService.forecast model_predict self n X)
    as [[[[k fc] ds] act]|e0]; [|discriminate].
  unfold ModelService.make_series.
  destruct (Nat.eqb_spec (List.length fc)
              (List.length (if ModelService.truthy ds then ds else ModelService.range k)))
    as [Hfc|_]; [|discriminate].
  destruct act as [[|y more]|].
  - intros E. injection E as <- <-. discriminate.
  - destruct (Nat.eqb_spec (List.length (y :: more)) (List.length ds)) as [Hds|_];
      [|discriminate].
    intros E. injection E as <- <-. simpl ModelService.actual.
    intros Ha. injection Ha as -> ->.
    destruct ds as [|d ds]; [discriminate Hds|].
    simpl ModelService.truthy in Hfc. cbv iota in Hfc.
    cbn [ModelService.predictions ModelService.actual_values
         ModelService.forecast_values ModelService.dates].
    simpl in Hds, Hfc |- *. repeat split; congruence.
  - intros E. injection E as <- <-. discriminate.
Qed.

End Forecasting.

Lemma predict_failure_keeps_state_witness :
  Forall (fun c => List.length (snd c) = Frame.len Sample.last_bars)
         (columns Sample.last_bars)
  /\ fst (Reference.predict Sample.trained (Some 5) None) = Raise LengthMismatch
  /\ snd (Reference.predict Sample.trained (Some 5) None) = Sample.trained.
Proof.
  assert (Hwf : Frame.well_formed Sample.last_bars) by (repeat constructor).
  split; [exact Hwf|]. split; [vm_compute; reflexivity|].
  apply (predict_failure_keeps_state Reference.Model Reference.model_predict
           Sample.trained _ (Some 5) None LengthMismatch).
  - intros held_out E. vm_compute in E. injection E as <-. exact Hwf.
  - vm_compute. reflexivity.
Defined.

Lemma predict_beyond_held_out_rows_witness :
  Reference.predict Sample.trained (Some 5) None = (Raise LengthMismatch, Sample.trained).
Proof.
  eapply (predict_beyond_held_out_rows Reference.Model Reference.model_predict
            Sample.trained _ _ Sample.last_bars 5 None).
  - reflexivity.
  - reflexivity.
  - reflexivity.
  - reflexivity.
  - constructor.
  - intros X'. eexists. split; reflexivity.
  - vm_compute. lia.
  - vm_compute. reflexivity.
Defined.

Lemma predict_stores_aligned_series_witness :
  ModelService.predictions Sample.predicted = Some (mkSeries [10; 10]%float [4; 5])
  /\ ModelService.actual_values Sample.predicted = Some (mkSeries [12; 13]%float [4; 5]).
Proof.
  assert (Hrun : Reference.predict Sample.trained None None
                 = (Ok (ModelService.mkPrediction [10; 10]%float [4; 5]
                          (Some [12; 13]%float) 2),
                    Sample.predicted)) by (vm_compute; reflexivity).
  destruct (predict_stores_aligned_series Reference.Model Reference.model_predict
              Sample.trained Sample.predicted None None _ 12%float [13]%float
              Hrun eq_refl) as (HP & HA & _).
  split; [exact HP|exact HA].
Defined.

(** ** calculate_metrics: outcomes *)

Section Scoring.

Variable Model : Type.
Variable mean_squared_error : list float -> list float -> float.
Variable mean_absolute_error : list float -> list float -> float.
Variable np_mean : list float -> float.

(** The outcome of [calculate_metrics], by the stored series. *)
Lemma calculate_metrics_cases (self : ModelService.t Model) :
  let outcome :=
    ModelService.calculate_metrics mean_squared_error mean_absolute_error np_mean self in
  match ModelService.predictions self, ModelService.actual_values self with
  | Some P, Some A =>
      let n := Nat.min (List.length (values P)) (List.length (values A)) in
      let kept :=
        positions (fun i => is_finite (nth i (values P) nan)
                            && is_finite (nth i (values A) nan)) n in
      match n, kept with
      | O, _ => outcome = Raise NoValuesAvailable
      | S _, [] =>
          exists nan_pred nan_actual inf_pred inf_actual,
            outcome = Raise (NoValidValues n nan_pred nan_actual inf_pred inf_actual)
      | S _, _ :: _ => exists metrics, outcome = Ok metrics
      end
  | _, _ => outcome = Raise MetricsInputsRequired
  end.
Proof.
  intros outcome.
  destruct (ModelService.predictions self) as [P|] eqn:HP.
  2:{ unfold outcome, ModelService.calculate_metrics. rewrite HP. reflexivity. }
  destruct (ModelService.actual_values self) as [A|] eqn:HA.
  2:{ unfold outcome, ModelService.calculate_metrics. rewrite HP, HA. reflexivity. }
  intros n kept.
  destruct n as [|m] eqn:Hn.
  - unfold outcome, ModelService.calculate_metrics. rewrite HP, HA.
    fold n. rewrite Hn. reflexivity.
  - destruct kept as [|i more] eqn:Hkept.
    + eexists _, _, _, _. unfold outcome. rewrite <- Hn.
      apply (@calculate_metrics_none_kept Model mean_squared_error mean_absolute_error
               np_mean self P A HP HA).
      * fold n. lia.
      * fold n. rewrite Hn. exact Hkept.
    + eexists. unfold outcome.
      apply (@calculate_metrics_on_kept Model mean_squared_error mean_absolute_error
               np_mean self P A HP HA).
      fold n. rewrite Hn. fold kept. rewrite Hkept. discriminate.
Qed.

(** X15.  What [calculate_metrics] can answer.  Without a stored forecast
    or without stored actual values it raises the inputs error; with a
    common length of zero, the no-values error; with a positive common
    length [n] and no position below [n] finite in both series, the
    no-valid-data error with total [n]; and it returns metrics as soon as
    one position below [n] is finite in both.  The two checks made after
    the filtering never fire. *)
Theorem calculate_metrics_outcomes (self : ModelService.t Model) :
  let outcome :=
    ModelService.calculate_metrics mean_squared_error mean_absolute_error np_mean self in
  match ModelService.predictions self, ModelService.actual_values self with
  | Some P, Some A =>
      let n := Nat.min (List.length (values P)) (List.length (values A)) in
      let kept :=
        positions (fun i => is_finite (nth i (values P) nan)
                            && is_finite (nth i (values A) nan)) n in
      match n, kept with
      | O, _ => outcome = Raise NoValuesAvailable
      | S _, [] =>
          exists nan_pred nan_actual inf_pred inf_actual,
            outcome = Raise (NoValidValues n nan_pred nan_actual inf_pred inf_actual)
      | S _, _ :: _ => exists metrics, outcome = Ok metrics
      end
  | _, _ => outcome = Raise MetricsInputsRequired
  end
  /\ outcome <> Raise NothingLeftAfterFiltering
  /\ outcome <> Raise NonFiniteAfterFiltering.
Proof.
  intros outcome. pose proof (calculate_metrics_cases self) as H.
  cbv zeta in H. fold outcome in H. split; [exact H|].
  destruct (ModelService.predictions self) as [P|];
    [destruct (ModelService.actual_values self) as [A|]|].
  - destruct (Nat.min _ _) as [|m].
    + rewrite H. split; discriminate.
    + destruct (positions _ _).
      * destruct H as (a & b & c & d & ->). split; discriminate.
      * destruct H as (metrics & ->). split; discriminate.
  - rewrite H. split; discriminate.
  - rewrite H. split; discriminate.
Qed.

(** X16.  [calculate_metrics] pairs the two series by position and reads
    nothing beyond the shorter one: the labels of the series play no part,
    and values the forecast holds past the end of the actual values do
    not change the answer. *)
Theorem calculate_metrics_by_position (self other : ModelService.t Model)
  (P A P' A' : Series) (surplus : list float) :
  ModelService.predictions self = Some P ->
  ModelService.actual_values self = Some A ->
  ModelService.predictions other = Some P' ->
  ModelService.actual_values other = Some A' ->
  values A' = values A ->
  values P' = values P ++ surplus ->
  (List.length (values A) <= List.length (values P))%nat ->
  ModelService.calculate_metrics mean_squared_error mean_absolute_error np_mean other
  = ModelService.calculate_metrics mean_squared_error mean_absolute_error np_mean self.
Proof.
  intros HP HA HP' HA' HvA HvP Hlen.
  unfold ModelService.calculate_metrics. rewrite HP, HA, HP', HA', HvA, HvP.
  assert (Hmin : Nat.min (List.length (values P ++ surplus)) (List.length (values A))
                 = Nat.min (List.length (values P)) (List.length (values A))).
  { rewrite length_app. lia. }
  rewrite Hmin.
  assert (Hfirst : firstn (Nat.min (List.length (values P)) (List.length (values A)))
                     (values P ++ surplus)
                   = firstn (Nat.min (List.length (values P)) (List.length (values A)))
                       (values P)).
  { rewrite firstn_app.
    replace (Nat.min (List.length (values P)) (List.length (values A))
             - List.length (values P))%nat with 0%nat by lia.
    simpl. apply app_nil_r. }
  rewrite Hfirst. reflexivity.
Qed.

End Scoring.

Lemma calculate_metrics_by_position_witness :
  Reference.calculate_metrics
    (ModelService.mk Reference.params None None None None
       (Some (mkSeries [10; 10; 10]%float [7; 8; 9]))
       (Some (mkSeries [12; 13]%float [4; 5])))
  = Reference.calculate_metrics Sample.predicted.
Proof.
  apply (calculate_metrics_by_position Reference.Model Reference.mean_squared_error
           Reference.mean_absolute_error Reference.mean _ _
           (mkSeries [10; 10]%float [4; 5]) (mkSeries [12; 13]%float [4; 5])
           (mkSeries [10; 10; 10]%float [7; 8; 9]) (mkSeries [12; 13]%float [4; 5])
           [10]%float); reflexivity.
Defined.

(** ** routes.py: the services in sequence *)

Lemma split_data_failure (self : DataService.t) (data : DataFrame) (r : Q)
  (method : string) (e : exception) :
  DataService.current_data self = Some data ->
  DataService.split_data self r method = Raise e ->
  e = IndexOutOfBounds.
Proof.
  intros Hd. unfold DataService.split_data. rewrite Hd.
  destruct (String.eqb method DataService.date_based && is_datetime (index_kind data));
    [|discriminate].
  destruct (Py.item _ _); [discriminate|].
  intros E. injection E as <-. reflexivity.
Qed.

Lemma split_data_shape (self : DataService.t) (data : DataFrame) (r : Q)
  (method : string) (training testing : DataFrame) :
  DataService.current_data self = Some data ->
  DataService.split_data self r method = Ok (training, testing) ->
  Frame.column_names training = Frame.column_names data
  /\ (Frame.len training + Frame.len testing = Frame.len data)%nat.
Proof.
  intros Hd. unfold DataService.split_data. rewrite Hd.
  destruct (String.eqb method DataService.date_based && is_datetime (index_kind data)).
  - destruct (Py.item (index data) (DataService.split_index data r)) as [cut|];
      [|discriminate].
    intros E. injection E as <- <-. unfold Frame.len. rewrite !mask_rows_index.
    split.
    + unfold Frame.column_names, Frame.mask_rows. simpl. apply column_names_map.
    + apply filter_split_length. intros ts.
      destruct (Z.ltb_spec ts cut), (Z.leb_spec cut ts); simpl; try reflexivity; lia.
  - intros E. injection E as <- <-. split.
    + unfold Frame.column_names, Frame.iloc_upto. simpl. apply column_names_map.
    + unfold Frame.len, Frame.iloc_upto, Frame.iloc_from. simpl.
      unfold Py.upto, Py.from. rewrite <- length_app, firstn_skipn. reflexivity.
Qed.

Section Session.

Variable window_statistic : FeatureEngineer.Statistic -> list float -> float.
Variable Model : Type.
Variable auto_arima :
  ModelService.ArimaParams -> list float -> option (list (list float)) -> result Model.
Variable model_order : Model -> option (Z * Z * Z).
Variable model_aic : Model -> option float.
Variable model_summary_text : Model -> option string.
Variable mean_squared_error : list float -> list float -> float.
Variable mean_absolute_error : list float -> list float -> float.
Variable np_mean : list float -> float.

(** What a successful feature generation leaves in the engineer. *)
Lemma generate_rolling_features_result (self : FeatureEngineer.t) (data : DataFrame)
  (cols : list string) (windows : list Z) (operations : option (list string))
  (out : FeatureEngineer.Outcome) :
  FeatureEngineer.generate_rolling_features window_statistic self data cols windows
    operations = Ok out ->
  index_kind (FeatureEngineer.returned out) = index_kind data
  /\ FeatureEngineer.data (FeatureEngineer.self_after out)
     = Some (FeatureEngineer.returned out)
  /\ Forall (fun name => Frame.has_column (FeatureEngineer.returned out) name = true)
            (FeatureEngineer.generated_features (FeatureEngineer.self_after out)).
Proof.
  unfold FeatureEngineer.generate_rolling_features.
  destruct (FeatureEngineer.augment window_statistic data cols windows _)
    as [aug|e] eqn:Haug; simpl; [|discriminate].
  intros E. injection E as <-.
  cbn [FeatureEngineer.returned FeatureEngineer.self_after FeatureEngineer.data
       FeatureEngineer.generated_features].
  destruct (augment_shape window_statistic data cols windows _ aug Haug)
    as (_ & Hkind & _ & _ & Hincl).
  split; [exact Hkind|]. split; [reflexivity|].
  apply Forall_forall. intros name Hname. apply has_column_In.
  unfold FeatureEngineer.dropna, Frame.mask_rows, Frame.column_names. cbn [columns].
  rewrite column_names_map. apply Hincl, Hname.
Qed.

(** The checks of [train_arima] pass when the columns are there. *)
Lemma fit_with_columns (self : ModelService.t Model) (training : DataFrame)
  (target : string) (features : list string) :
  Frame.has_column training target = true ->
  Forall (fun f => Frame.has_column training f = true) features ->
  exists y X,
    ModelService.fit auto_arima self training target features
    = auto_arima (ModelService.config self) y X.
Proof.
  intros Htarget Hfeatures.
  destruct (select_columns_present training features Hfeatures) as (cols & Hcols & _).
  pose proof Htarget as Hy. rewrite has_column_lookup in Hy.
  destruct (Frame.lookup target (columns training)) as [y|] eqn:Hlookup; [|discriminate].
  exists y, (match features with [] => None | _ :: _ => Some cols end).
  unfold ModelService.fit. rewrite Htarget. simpl negb. cbv iota.
  rewrite (@filter_none _ (fun f => negb (Frame.has_column training f)) features).
  2:{ intros f Hf. rewrite Forall_forall in Hfeatures. rewrite (Hfeatures f Hf).
      reflexivity. }
  simpl ModelService.truthy. cbv iota.
  unfold Frame.get. rewrite Hlookup. simpl bind.
  destruct features as [|f rest]; cbn [ModelService.truthy]; cbv iota.
  - reflexivity.
  - rewrite Hcols. reflexivity.
Qed.




End Session.



(** ** The chart methods of the data service *)

Lemma from_last {A : Type} (n : Z) (l : list A) :
  0 < n -> Py.from (- n) l = skipn (List.length l - Z.to_nat n) l.
Proof.
  intros Hn. unfold Py.from, Py.bound.
  destruct (Z.leb_spec 0 (- n)); [lia|]. f_equal. lia.
Qed.

Lemma lookup_map (name : string) (g : list float -> list float)
  (cols : list (string * list float)) :
  Frame.lookup name (map (fun c => (fst c, g (snd c))) cols)
  = option_map g (Frame.lookup name cols).
Proof.
  induction cols as [|[c u] cols IH]; simpl; [reflexivity|].
  destruct (String.eqb name c); [reflexivity|exact IH].
Qed.

Lemma from_incl {A : Type} (k : Z) (l : list A) : incl (Py.from k l) l.
Proof.
  intros x Hx. unfold Py.from in Hx.
  rewrite <- (firstn_skipn (Py.bound k (List.length l)) l).
  apply in_or_app. right. exact Hx.
Qed.

(** [data.tail(limit)] under [if limit]: a well-formed table with the same
    columns, rows of the table given, and at most [limit] of them when
    the limit is positive. *)
Lemma limited_shape (limit : option Z) (df : DataFrame) :
  (Frame.well_formed df -> Frame.well_formed (DataService.limited limit df))
  /\ Frame.column_names (DataService.limited limit df) = Frame.column_names df
  /\ incl (index (DataService.limited limit df)) (index df)
  /\ (forall n, limit = Some n -> 0 < n ->
        Frame.len (DataService.limited limit df) = Nat.min (Z.to_nat n) (Frame.len df)).
Proof.
  unfold DataService.limited, Py.truth_of_int, Frame.tail.
  destruct limit as [n|].
  2:{ repeat split; try tauto; try apply incl_refl. intros n E. discriminate E. }
  destruct (Z.eqb_spec n 0) as [->|Hn]; simpl negb; cbv iota.
  { repeat split; try tauto; try apply incl_refl. intros n E. injection E as <-. lia. }
  split; [apply iloc_from_well_formed|].
  split.
  { unfold Frame.column_names, Frame.iloc_from. simpl. apply column_names_map. }
  split; [apply from_incl|].
  intros m E Hm. injection E as <-.
  unfold Frame.len, Frame.iloc_from. simpl. rewrite from_last by exact Hm.
  rewrite length_skipn. lia.
Qed.

(** X20.  [get_vwap_chart_data] on a table with a VWAP column returns as
    many dates as values.  Without a limit, and with the limit 0, they
    are all the rows; with a positive limit [n], the last [n] rows, or
    all of them when there are fewer; with a negative limit, all rows
    but the first [-n]. *)
Theorem get_vwap_chart_data_rows (self : DataService.t) (current : DataFrame)
  (col : list float) (limit : option Z) :
  DataService.current_data self = Some current ->
  Frame.lookup "VWAP" (columns current) = Some col ->
  List.length col = Frame.len current ->
  exists chart,
    DataService.get_vwap_chart_data self limit = Ok (DataService.Data chart)
    /\ List.length (DataService.vwap_dates chart)
       = List.length (DataService.vwap_values chart)
    /\ match limit with
       | None =>
           DataService.vwap_dates chart = index current
           /\ DataService.vwap_values chart = col
       | Some n =>
           if n =? 0 then
             DataService.vwap_dates chart = index current
             /\ DataService.vwap_values chart = col
           else if 0 <? n then
             DataService.vwap_dates chart
             = skipn (Frame.len current - Z.to_nat n) (index current)
             /\ DataService.vwap_values chart
                = skipn (Frame.len current - Z.to_nat n) col
           else
             DataService.vwap_dates chart = skipn (Z.to_nat (- n)) (index current)
             /\ DataService.vwap_values chart = skipn (Z.to_nat (- n)) col
       end.
Proof.
  intros Hd Hcol Hlen. unfold DataService.get_vwap_chart_data.
  rewrite Hd, has_column_lookup, Hcol. simpl negb. cbv iota.
  unfold Frame.project. cbn [Frame.project_columns]. rewrite Hcol. simpl bind.
  unfold DataService.limited, Py.truth_of_int, Frame.tail, Frame.len in *.
  destruct limit as [n|].
  2:{ eexists. split; [reflexivity|]. simpl. repeat split. symmetry. exact Hlen. }
  destruct (Z.eqb_spec n 0) as [->|Hn]; simpl negb; cbv iota.
  { eexists. split; [reflexivity|]. simpl. repeat split. symmetry. exact Hlen. }
  eexists. split; [reflexivity|].
  cbn [Frame.iloc_from index columns map fst snd Frame.lookup String.eqb Ascii.eqb
       Bool.eqb DataService.vwap_dates DataService.vwap_values].
  destruct (Z.ltb_spec 0 n) as [Hpos|Hneg].
  - rewrite !from_last by exact Hpos. rewrite Hlen.
    split; [rewrite !length_skipn; lia|]. split; reflexivity.
  - rewrite !(@from_skipn _ (- n)) by lia.
    split; [rewrite !length_skipn; lia|]. split; reflexivity.
Qed.

Lemma get_vwap_chart_data_rows_witness :
  DataService.get_vwap_chart_data (DataService.mk (Some Sample.prices)) (Some 2)
  = Ok (DataService.Data (DataService.mkVwapChart [4; 5] [12; 13]%float))
  /\ DataService.get_vwap_chart_data (DataService.mk (Some Sample.prices)) (Some 0)
     = Ok (DataService.Data
             (DataService.mkVwapChart [1; 2; 3; 4; 5] [9; 11; 10; 12; 13]%float)).
Proof.
  destruct (get_vwap_chart_data_rows (DataService.mk (Some Sample.prices)) Sample.prices
              [9; 11; 10; 12; 13]%float (Some 2) eq_refl eq_refl eq_refl)
    as ([dates vals] & Hrun & _ & Hd & Hv).
  destruct (get_vwap_chart_data_rows (DataService.mk (Some Sample.prices)) Sample.prices
              [9; 11; 10; 12; 13]%float (Some 0) eq_refl eq_refl eq_refl)
    as ([dates0 vals0] & Hrun0 & _ & Hd0 & Hv0).
  simpl in Hd, Hv, Hd0, Hv0. subst. split; [exact Hrun|exact Hrun0].
Defined.

Lemma get_column (df : DataFrame) (name : string) :
  Frame.well_formed df -> In name (Frame.column_names df) ->
  exists v, Frame.get df name = Ok v /\ List.length v = Frame.len df.
Proof.
  intros Hwf Hin. apply has_column_In in Hin. rewrite has_column_lookup in Hin.
  unfold Frame.get.
  destruct (Frame.lookup name (columns df)) as [v|] eqn:Hv; [|discriminate].
  exists v. split; [reflexivity|].
  unfold Frame.well_formed in Hwf. rewrite Forall_forall in Hwf.
  apply (Hwf _ (@lookup_In _ _ _ Hv)).
Qed.


